(** * Tooltip builder: visibility life cycle

    A shallow embedding of [packages/melt/src/lib/builders/Tooltip.svelte.ts]:
    the private fields of the [Tooltip] class become a record, every event
    handler becomes a function from tooltip to tooltip, and the browser's
    timer table is threaded through the record as explicit state.  The
    closures handed to [window.setTimeout] are defunctionalised ([Callback])
    and run by [fire].

    Not part of the embedding: ids and attribute objects, the arrow, the
    floating-ui positioning effect. *)

From Stdlib Require Import ZArith List Bool String Lia.
Import ListNotations.
Local Open Scope Z_scope.

(** type OpenReason = "pointer" | "focus" *)
Inductive OpenReason : Set := pointer | focus.

(** ** Geometry ($lib/utils/polygon, $lib/utils/pointer) *)
Module Geometry.

Record Point : Set := mkPoint { px : Z; py : Z }.

(** The bounding rectangle of an element, in client coordinates
    (idealised to integers). *)
Record Rect : Set := mkRect { left : Z; top : Z; right : Z; bottom : Z }.

(** Modelled from the spec: [getPointsFromEl] of $lib/utils/polygon is not
    among the sources.  Spec 4.2: "the corner points" of a rectangle. *)
Definition getPointsFromEl (r : Rect) : list Point :=
  [ mkPoint (left r) (top r); mkPoint (right r) (top r);
    mkPoint (right r) (bottom r); mkPoint (left r) (bottom r) ].

Definition inRect (r : Rect) (p : Point) : Prop :=
  left r <= px p <= right r /\ top r <= py p <= bottom r.

(** Twice the signed area of the triangle a b c. *)
Definition cross (a b c : Point) : Z :=
  (px b - px a) * (py c - py a) - (py b - py a) * (px c - px a).

(** A polygon is kept as the list of its directed boundary edges, the inside
    on the non-negative side of each; a corner that stands alone is the edge
    from it to itself. *)
Definition Polygon : Set := list (Point * Point).

(** Modelled from the spec: part of [makeHull].  The pair [e] of corner
    points has every corner point on its non-negative side. *)
Definition supports (pts : list Point) (e : Point * Point) : bool :=
  forallb (fun c => 0 <=? cross (fst e) (snd e) c) pts.

(** Modelled from the spec: [makeHull] of $lib/utils/polygon is not among
    the sources.  Spec 4.2: "computes the convex hull of the corner points
    of all given rectangles".  The hull is given by its boundary: the pairs
    of corner points that have every corner point on one side, each corner
    being paired with itself too. *)
Definition makeHull (pts : list Point) : Polygon :=
  filter (supports pts) (list_prod pts pts).

(** Modelled from the spec: [makeHullFromElements] of $lib/utils/polygon. *)
Definition makeHullFromElements (els : list Rect) : Polygon :=
  makeHull (flat_map getPointsFromEl els).

(** Modelled from the spec: part of [pointInPolygon].  [p] is within the
    extent of the vertices [vs], in x and in y; this is what bounds a polygon
    whose vertices all lie on one line, or coincide. *)
Definition inBounds (p : Point) (vs : list Point) : bool :=
  existsb (fun a => px a <=? px p) vs && existsb (fun a => px p <=? px a) vs &&
  existsb (fun a => py a <=? py p) vs && existsb (fun a => py p <=? py a) vs.

(** Modelled from the spec: [pointInPolygon].  Spec 4.2: "standard
    point-in-polygon test; boundary points count as inside". *)
Definition pointInPolygon (p : Point) (poly : Polygon) : bool :=
  inBounds p (map fst poly) &&
  forallb (fun e => 0 <=? cross (fst e) (snd e) p) poly.

(** Modelled from the spec: [isPointerInGraceArea] of $lib/utils/pointer,
    applied to the event's clientX / clientY. *)
Definition isPointerInGraceArea (e : Point) (area : Polygon) : bool :=
  pointInPolygon e area.

(** Weighted sums, for the textbook definition of a convex hull. *)
Fixpoint wsum (f : Point -> Z) (ws : list Z) (pts : list Point) : Z :=
  match ws, pts with
  | w :: ws', c :: pts' => w * f c + wsum f ws' pts'
  | _, _ => 0
  end.

Definition total (ws : list Z) : Z := fold_right Z.add 0 ws.

(** [p] is a convex combination of [pts]: non-negative weights [ws], not
    all zero, with  (sum ws) * p = sum (ws_i * pts_i). *)
Definition in_convex_hull (pts : list Point) (p : Point) : Prop :=
  exists ws : list Z,
    List.length ws = List.length pts /\
    Forall (fun w => 0 <= w) ws /\
    0 < total ws /\
    total ws * px p = wsum px ws pts /\
    total ws * py p = wsum py ws pts.

End Geometry.

(** ** The browser's timer table (window.setTimeout / window.clearTimeout) *)

(** The closures passed to setTimeout, one constructor per closure, with the
    variables each one captures. *)
Inductive Callback : Set :=
| OpenCb (reason : OpenReason)       (* #openTooltip, lines 300-304 *)
| CloseCb (isBlur : bool)            (* #closeTooltip, lines 320-325 *)
| FocusOutCb.                        (* onfocusout, rest of the handler after the await *)

Module Window.

Record Timer : Set := mkTimer { handle : positive; delay : Z; callback : Callback }.

(** Timer handles are integers greater than zero, so a stored handle is
    always truthy: [if (this.#openTimeout)] is a test for non-null. *)
Record t : Set := mk { nextHandle : positive; timers : list Timer }.

Definition empty : t := mk 1%positive [].

Definition setTimeout (cb : Callback) (ms : Z) (w : t) : positive * t :=
  (nextHandle w,
   mk (Pos.succ (nextHandle w)) (timers w ++ [mkTimer (nextHandle w) ms cb])).

Definition clearTimeout (h : positive) (w : t) : t :=
  mk (nextHandle w) (filter (fun x => negb (Pos.eqb (handle x) h)) (timers w)).

Definition lookup (h : positive) (w : t) : option Timer :=
  find (fun x => Pos.eqb (handle x) h) (timers w).

Definition isOpenCb (x : Timer) : bool :=
  match callback x with OpenCb _ => true | _ => false end.

Definition isCloseCb (x : Timer) : bool :=
  match callback x with CloseCb _ => true | _ => false end.

Definition pendingOpens (w : t) : list Timer := filter isOpenCb (timers w).
Definition pendingCloses (w : t) : list Timer := filter isCloseCb (timers w).

End Window.

(** ** The document, as far as the handlers query it *)
Module Dom.

(** An element found by getElementById: its rectangle, and the answer of
    [el.contains(document.activeElement)]. *)
Record Element : Set := mkElement { rect : Geometry.Rect; containsActive : bool }.

Record Document : Set := mkDocument {
  triggerEl : option Element;     (* getElementById(ids.trigger) *)
  contentEl : option Element      (* getElementById(ids.content) *)
}.

Inductive PointerType : Set := mouse | pen | touch.

Definition isTouch (p : PointerType) : bool :=
  match p with touch => true | _ => false end.

(** e.target of a scroll event.  [NodeTarget c]: an Element or the
    Document, with [c] the answer of [target.contains(triggerEl)]. *)
Inductive EventTarget : Set :=
| NodeTarget (containsTrigger : bool)
| OtherTarget.

End Dom.

(** ** Synced ($lib/Synced.svelte) *)
Module Synced.

(** Modelled from the spec: the [Synced] class is not among the sources.
    Spec 9: "holds an internal value; if an external getter is supplied,
    reads always delegate to it and internal writes become notifications
    to an external setter rather than direct mutation".
    [external = Some v]: a getter was supplied and currently returns [v]. *)
Record t : Set := mk { internal : bool; external : option bool; notified : list bool }.

(** Modelled from the spec: the getter [current]; "reads always delegate"
    to the external getter when there is one. *)
Definition current (s : t) : bool :=
  match external s with
  | Some v => v
  | None => internal s
  end.

(** Modelled from the spec: the setter [current]; a notification to the
    owner when there is an external getter, a mutation otherwise. *)
Definition set_current (v : bool) (s : t) : t :=
  match external s with
  | Some _ => mk (internal s) (external s) (v :: notified s)
  | None => mk v None (notified s)
  end.

Definition uncontrolled (s : t) : Prop := external s = None.

End Synced.

(** ** Props *)

(** Modelled from the spec: [extract] of $lib/utils/extract is not among the
    sources.  Spec 6: a configuration value that is not supplied takes its
    default. *)
Definition extract {A : Type} (v : option A) (d : A) : A :=
  match v with
  | Some a => a
  | None => d
  end.

Module Props.

(** The [open] prop: a static value (possibly undefined) or a getter. *)
Inductive OpenProp : Set :=
| Static (v : option bool)
| Getter (v : bool).

Record t : Set := mk {
  open : OpenProp;
  closeOnPointerDown : option bool;
  openDelay : option Z;
  closeDelay : option Z;
  forceVisible : option bool;
  disableHoverableContent : option bool
}.

Definition default : t := mk (Static None) None None None None None.

End Props.

(** ** The Tooltip class *)
Module Tooltip.

Record t : Set := mk {
  props : Props.t;                    (* #props *)
  synced_open : Synced.t;             (* #open *)
  openReason : option OpenReason;     (* #openReason *)
  clickedTrigger : bool;              (* #clickedTrigger *)
  isPointerInsideTrigger : bool;      (* #isPointerInsideTrigger *)
  isPointerInsideContent : bool;      (* #isPointerInsideContent *)
  isMouseInTooltipArea : bool;        (* #isMouseInTooltipArea *)
  openTimeout : option positive;      (* #openTimeout *)
  closeTimeout : option positive;     (* #closeTimeout *)
  mounted : bool;                     (* #mounted *)
  window : Window.t                   (* the timer table of the page *)
}.

(** Field assignments. *)
Definition set_open_sync (v : Synced.t) (s : t) : t :=
  mk (props s) v (openReason s) (clickedTrigger s) (isPointerInsideTrigger s)
     (isPointerInsideContent s) (isMouseInTooltipArea s) (openTimeout s)
     (closeTimeout s) (mounted s) (window s).

Definition set_openReason (v : option OpenReason) (s : t) : t :=
  mk (props s) (synced_open s) v (clickedTrigger s) (isPointerInsideTrigger s)
     (isPointerInsideContent s) (isMouseInTooltipArea s) (openTimeout s)
     (closeTimeout s) (mounted s) (window s).

Definition set_clickedTrigger (v : bool) (s : t) : t :=
  mk (props s) (synced_open s) (openReason s) v (isPointerInsideTrigger s)
     (isPointerInsideContent s) (isMouseInTooltipArea s) (openTimeout s)
     (closeTimeout s) (mounted s) (window s).

Definition set_isPointerInsideTrigger (v : bool) (s : t) : t :=
  mk (props s) (synced_open s) (openReason s) (clickedTrigger s) v
     (isPointerInsideContent s) (isMouseInTooltipArea s) (openTimeout s)
     (closeTimeout s) (mounted s) (window s).

Definition set_isPointerInsideContent (v : bool) (s : t) : t :=
  mk (props s) (synced_open s) (openReason s) (clickedTrigger s)
     (isPointerInsideTrigger s) v (isMouseInTooltipArea s) (openTimeout s)
     (closeTimeout s) (mounted s) (window s).

Definition set_isMouseInTooltipArea (v : bool) (s : t) : t :=
  mk (props s) (synced_open s) (openReason s) (clickedTrigger s)
     (isPointerInsideTrigger s) (isPointerInsideContent s) v (openTimeout s)
     (closeTimeout s) (mounted s) (window s).

Definition set_openTimeout (v : option positive) (s : t) : t :=
  mk (props s) (synced_open s) (openReason s) (clickedTrigger s)
     (isPointerInsideTrigger s) (isPointerInsideContent s)
     (isMouseInTooltipArea s) v (closeTimeout s) (mounted s) (window s).

Definition set_closeTimeout (v : option positive) (s : t) : t :=
  mk (props s) (synced_open s) (openReason s) (clickedTrigger s)
     (isPointerInsideTrigger s) (isPointerInsideContent s)
     (isMouseInTooltipArea s) (openTimeout s) v (mounted s) (window s).

Definition set_mounted (v : bool) (s : t) : t :=
  mk (props s) (synced_open s) (openReason s) (clickedTrigger s)
     (isPointerInsideTrigger s) (isPointerInsideContent s)
     (isMouseInTooltipArea s) (openTimeout s) (closeTimeout s) v (window s).

Definition set_window (v : Window.t) (s : t) : t :=
  mk (props s) (synced_open s) (openReason s) (clickedTrigger s)
     (isPointerInsideTrigger s) (isPointerInsideContent s)
     (isMouseInTooltipArea s) (openTimeout s) (closeTimeout s) (mounted s) v.

(** The derived configuration, lines 93-98, with the defaults of the code. *)
Definition closeOnPointerDown (s : t) : bool :=
  extract (Props.closeOnPointerDown (props s)) true.
Definition openDelay (s : t) : Z := extract (Props.openDelay (props s)) 1000.
Definition closeDelay (s : t) : Z := extract (Props.closeDelay (props s)) 0.
Definition disableHoverableContent (s : t) : bool :=
  extract (Props.disableHoverableContent (props s)) false.
Definition forceVisible (s : t) : bool :=
  extract (Props.forceVisible (props s)) false.

(** get open() / set open(value), lines 155-161 *)
Definition open (s : t) : bool := Synced.current (synced_open s).
Definition set_open (v : bool) (s : t) : t :=
  set_open_sync (Synced.set_current v (synced_open s)) s.

(** #isVisible, line 99 *)
Definition isVisible (s : t) : bool := open s || forceVisible s.

(** constructor, lines 112-118: the state of a new Tooltip on a page whose
    timer table is [w]. *)
Definition new (p : Props.t) (w : Window.t) : t :=
  mk p
     match Props.open p with
     | Props.Static v => Synced.mk (extract v false) None []
     | Props.Getter v => Synced.mk false (Some v) []
     end
     None false false false false None None false w.

(** window.clearTimeout(h) on the page's table *)
Definition clearTimeout (h : positive) (s : t) : t :=
  set_window (Window.clearTimeout h (window s)) s.

(** The recurring block
      if (this.#openTimeout) { window.clearTimeout(this.#openTimeout);
                               this.#openTimeout = null; } *)
Definition clearOpenTimeout (s : t) : t :=
  match openTimeout s with
  | Some h => set_openTimeout None (clearTimeout h s)
  | None => s
  end.

Definition clearCloseTimeout (s : t) : t :=
  match closeTimeout s with
  | Some h => set_closeTimeout None (clearTimeout h s)
  | None => s
  end.

(** #openTooltip(reason), lines 293-306 *)
Definition openTooltip (reason : OpenReason) (s : t) : t :=
  let s := clearCloseTimeout s in
  match openTimeout s with
  | None =>
      let (h, w) := Window.setTimeout (OpenCb reason) (openDelay s) (window s) in
      set_openTimeout (Some h) (set_window w s)
  | Some _ => s
  end.

(** #closeTooltip(isBlur), lines 308-327 *)
Definition closeTooltip (isBlur : bool) (s : t) : t :=
  let s := clearOpenTimeout s in
  if isBlur && isMouseInTooltipArea s then
    set_openReason (Some pointer) s
  else
    match closeTimeout s with
    | None =>
        let (h, w) := Window.setTimeout (CloseCb isBlur) (closeDelay s) (window s) in
        set_closeTimeout (Some h) (set_window w s)
    | Some _ => s
    end.

(** The body of the open timer's closure, lines 301-303. *)
Definition runOpenCb (reason : OpenReason) (s : t) : t :=
  let s := set_open true s in
  let s := set_openReason
             (match openReason s with Some r => Some r | None => Some reason end) s in
  set_openTimeout None s.

(** The body of the close timer's closure, lines 321-324. *)
Definition runCloseCb (isBlur : bool) (s : t) : t :=
  let s := set_open false s in
  let s := set_openReason None s in
  let s := if isBlur then set_clickedTrigger false s else s in
  set_closeTimeout None s.

(** #handleScroll(e), lines 329-339 *)
Definition handleScroll (doc : Dom.Document) (target : Dom.EventTarget) (s : t) : t :=
  if negb (open s) then s
  else
    match target with
    | Dom.OtherTarget => s
    | Dom.NodeTarget containsTrigger =>
        if (match Dom.triggerEl doc with
            | Some _ => containsTrigger
            | None => false
            end) || open s
        then closeTooltip false s
        else s
    end.

(** The document mousemove listener, lines 128-151.  The effect installs it
    only while the tooltip is open (line 126). *)
Definition onmousemove (doc : Dom.Document) (e : Geometry.Point) (s : t) : t :=
  if negb (open s) then s
  else
    match Dom.contentEl doc, Dom.triggerEl doc with
    | Some contentEl, Some triggerEl =>
        let polygonElements :=
          if disableHoverableContent s
          then [Dom.rect triggerEl]
          else [Dom.rect triggerEl; Dom.rect contentEl] in
        let polygon := Geometry.makeHullFromElements polygonElements in
        let s := set_isMouseInTooltipArea
                   (isPointerInsideContent s
                    || isPointerInsideTrigger s
                    || Geometry.isPointerInGraceArea e polygon) s in
        match openReason s with
        | Some pointer =>
            if negb (isMouseInTooltipArea s) then closeTooltip false s else s
        | _ => s
        end
    | _, _ => if open s then closeTooltip false s else s
    end.

(** #sharedProps.onfocusout, lines 165-177.  The handler first awaits a
    zero-delay timer; the rest of it is the closure [FocusOutCb]. *)
Definition onfocusout (s : t) : t :=
  let (_, w) := Window.setTimeout FocusOutCb 0 (window s) in
  set_window w s.

Definition containsActiveElement (el : option Dom.Element) : bool :=
  match el with
  | Some x => Dom.containsActive x
  | None => false
  end.

Definition runFocusOutCb (doc : Dom.Document) (s : t) : t :=
  if containsActiveElement (Dom.contentEl doc)
     || containsActiveElement (Dom.triggerEl doc)
  then s
  else set_open false s.

(** The document keydown listener, lines 251-261. *)
Definition onkeydown (key : string) (s : t) : t :=
  if negb (String.eqb key "Escape") then s
  else
    let s := clearOpenTimeout s in
    set_open false s.

End Tooltip.

(** get trigger(), lines 194-220 *)
Module Trigger.
Import Tooltip.

Definition onpointerdown (s : t) : t :=
  if negb (closeOnPointerDown s) then s
  else
    let s := set_open false s in
    let s := set_clickedTrigger true s in
    clearOpenTimeout s.

Definition onpointerenter (pointerType : Dom.PointerType) (s : t) : t :=
  let s := set_isPointerInsideTrigger true s in
  if Dom.isTouch pointerType then s
  else openTooltip pointer s.

Definition onpointerleave (pointerType : Dom.PointerType) (s : t) : t :=
  let s := set_isPointerInsideTrigger false s in
  if Dom.isTouch pointerType then s
  else clearOpenTimeout s.

Definition onfocus (s : t) : t :=
  if clickedTrigger s then s
  else openTooltip focus s.

Definition onblur (s : t) : t := closeTooltip true s.

(** The cleanup of the effect at lines 182-187. *)
Definition cleanup (s : t) : t := set_isPointerInsideTrigger false s.

End Trigger.

(** get content(), lines 272-279 *)
Module Content.
Import Tooltip.

Definition onpointerenter (s : t) : t :=
  let s := set_isPointerInsideContent true s in
  openTooltip pointer s.

Definition onpointerleave (s : t) : t :=
  set_isPointerInsideContent false s.

Definition onpointerdown (s : t) : t := openTooltip pointer s.

(** The cleanup of the effect at line 226. *)
Definition cleanup (s : t) : t := set_isPointerInsideContent false s.

End Content.

(** ** The event loop *)

(** What the page can deliver to a tooltip.  Handlers run to completion, one
    event at a time. *)
Inductive Event : Set :=
| TriggerPointerDown
| TriggerPointerEnter (pointerType : Dom.PointerType)
| TriggerPointerLeave (pointerType : Dom.PointerType)
| TriggerFocus
| TriggerBlur
| TriggerFocusOut
| TriggerCleanup
| ContentPointerEnter (pointerType : Dom.PointerType)
| ContentPointerLeave (pointerType : Dom.PointerType)
| ContentPointerDown
| ContentFocusOut
| ContentCleanup
| MouseMove (doc : Dom.Document) (e : Geometry.Point)
| Scroll (doc : Dom.Document) (target : Dom.EventTarget)
| KeyDown (key : string)
| TimerFires (h : positive) (doc : Dom.Document)
| Mounted
| OwnerSets (v : bool).

(** The timer [h] expires: it leaves the table and its closure runs.  An
    expired or cleared handle does nothing. *)
Definition fire (h : positive) (doc : Dom.Document) (s : Tooltip.t) : Tooltip.t :=
  match Window.lookup h (Tooltip.window s) with
  | None => s
  | Some x =>
      let s := Tooltip.clearTimeout h s in
      match Window.callback x with
      | OpenCb reason => Tooltip.runOpenCb reason s
      | CloseCb isBlur => Tooltip.runCloseCb isBlur s
      | FocusOutCb => Tooltip.runFocusOutCb doc s
      end
  end.

(** The owner of a controlled [open] changes what its getter returns. *)
Definition ownerSets (v : bool) (s : Tooltip.t) : Tooltip.t :=
  match Synced.external (Tooltip.synced_open s) with
  | Some _ =>
      Tooltip.set_open_sync
        (Synced.mk (Synced.internal (Tooltip.synced_open s)) (Some v)
                   (Synced.notified (Tooltip.synced_open s))) s
  | None => s
  end.

Definition dispatch (s : Tooltip.t) (ev : Event) : Tooltip.t :=
  match ev with
  | TriggerPointerDown => Trigger.onpointerdown s
  | TriggerPointerEnter pt => Trigger.onpointerenter pt s
  | TriggerPointerLeave pt => Trigger.onpointerleave pt s
  | TriggerFocus => Trigger.onfocus s
  | TriggerBlur => Trigger.onblur s
  | TriggerFocusOut => Tooltip.onfocusout s
  | TriggerCleanup => Trigger.cleanup s
  | ContentPointerEnter _ => Content.onpointerenter s
  | ContentPointerLeave _ => Content.onpointerleave s
  | ContentPointerDown => Content.onpointerdown s
  | ContentFocusOut => Tooltip.onfocusout s
  | ContentCleanup => Content.cleanup s
  | MouseMove doc e => Tooltip.onmousemove doc e s
  | Scroll doc target => Tooltip.handleScroll doc target s
  | KeyDown key => Tooltip.onkeydown key s
  | TimerFires h doc => fire h doc s
  | Mounted => Tooltip.set_mounted true s
  | OwnerSets v => ownerSets v s
  end.

Definition run (s : Tooltip.t) (evs : list Event) : Tooltip.t :=
  fold_left dispatch evs s.

(** The states a tooltip created with props [p] can be in. *)
Inductive reachable (p : Props.t) : Tooltip.t -> Prop :=
| reachable_new : reachable p (Tooltip.new p Window.empty)
| reachable_step s ev : reachable p s -> reachable p (dispatch s ev).

(** ** Consistency of the two handles with the timer table *)

(** [openTimeout] / [closeTimeout] name exactly the open / close closures that
    are pending in the table, and never both at once. *)
Record TimersOk (dOpen dClose : Z) (ot ct : option positive) (w : Window.t) : Prop :=
  mkTimersOk {
    ok_nodup : NoDup (map Window.handle (Window.timers w));
    ok_fresh : forall x, In x (Window.timers w) ->
                 (Window.handle x < Window.nextHandle w)%positive;
    ok_opens : forall x, In x (Window.timers w) -> Window.isOpenCb x = true ->
                 ot = Some (Window.handle x) /\ Window.delay x = dOpen;
    ok_closes : forall x, In x (Window.timers w) -> Window.isCloseCb x = true ->
                 ct = Some (Window.handle x) /\ Window.delay x = dClose;
    ok_open_pending : forall h, ot = Some h ->
                 exists r, In (Window.mkTimer h dOpen (OpenCb r)) (Window.timers w);
    ok_close_pending : forall h, ct = Some h ->
                 exists b, In (Window.mkTimer h dClose (CloseCb b)) (Window.timers w);
    ok_exclusive : ot = None \/ ct = None
  }.

Definition Inv (s : Tooltip.t) : Prop :=
  TimersOk (Tooltip.openDelay s) (Tooltip.closeDelay s)
           (Tooltip.openTimeout s) (Tooltip.closeTimeout s) (Tooltip.window s).

(** ** Scenarios

    The layout of testable property P3 of the specification: the trigger at
    (0,0)-(50,20), the content at (0,40)-(50,60), nothing focused. *)
Module Scenario.

Definition triggerRect : Geometry.Rect := Geometry.mkRect 0 0 50 20.
Definition contentRect : Geometry.Rect := Geometry.mkRect 0 40 50 60.

Definition page : Dom.Document :=
  Dom.mkDocument (Some (Dom.mkElement triggerRect false))
                 (Some (Dom.mkElement contentRect false)).

Definition fresh : Tooltip.t := Tooltip.new Props.default Window.empty.

(** Opened from the keyboard: focus on the trigger, then the open timer. *)
Definition openedByFocus : Tooltip.t :=
  run fresh [TriggerFocus; TimerFires 1 page].

(** The mouse is over the trigger and the open timer is running. *)
Definition hovering : Tooltip.t := run fresh [TriggerPointerEnter Dom.mouse].

(** Opened by hovering the trigger with a mouse; the pointer has since left
    the trigger. *)
Definition openedByPointer : Tooltip.t :=
  run fresh [TriggerPointerEnter Dom.mouse; TimerFires 1 page;
             TriggerPointerLeave Dom.mouse].

(** A tooltip with closeDelay = 2000 (P4), opened from the keyboard, with a
    close already requested by a scroll of the document. *)
Definition slowProps : Props.t :=
  Props.mk (Props.Static None) None None (Some 2000) None None.

Definition closingSlowly : Tooltip.t :=
  run (Tooltip.new slowProps Window.empty)
      [TriggerFocus; TimerFires 1 page; Scroll page (Dom.NodeTarget true)].

(** A tooltip with disableHoverableContent, opened by hovering; the pointer
    has left the trigger. *)
Definition triggerOnlyProps : Props.t :=
  Props.mk (Props.Static None) None None None None (Some true).

Definition openedTriggerOnly : Tooltip.t :=
  run (Tooltip.new triggerOnlyProps Window.empty)
      [TriggerPointerEnter Dom.mouse; TimerFires 1 page;
       TriggerPointerLeave Dom.mouse].

(** Opened from the keyboard while the mouse rests between trigger and
    content. *)
Definition focusedAndHovered : Tooltip.t :=
  run openedByFocus [MouseMove page (Geometry.mkPoint 25 30)].

(** A tooltip whose [open] is supplied by a getter that returns true; the
    mouse is over its trigger and the open timer is running. *)
Definition controlledProps : Props.t :=
  Props.mk (Props.Getter true) None None None None None.

Definition controlledHovering : Tooltip.t :=
  run (Tooltip.new controlledProps Window.empty) [TriggerPointerEnter Dom.mouse].

(** The path of P3. *)
Definition crossing : list Geometry.Point :=
  [Geometry.mkPoint 25 10; Geometry.mkPoint 25 30; Geometry.mkPoint 25 50].

End Scenario.

(** The hover events of a touch pointer: pointerenter and pointerleave, on
    the trigger or on the content. *)
Definition isTouchHover (ev : Event) : bool :=
  match ev with
  | TriggerPointerEnter pt | TriggerPointerLeave pt
  | ContentPointerEnter pt | ContentPointerLeave pt => Dom.isTouch pt
  | _ => false
  end.

(** ** Rendered attributes

    The entries of the object returned by [get content()] that show or hide
    the content. *)
Module Attrs.

(** content, line 268: hidden; [None] is undefined. *)
Definition content_hidden (s : Tooltip.t) : option bool :=
  if Tooltip.isVisible s && Tooltip.mounted s then None else Some true.

(** content, line 270: style *)
Definition content_style (s : Tooltip.t) : string :=
  if Tooltip.isVisible s && Tooltip.mounted s then EmptyString else "display: none;".

End Attrs.

(** The events whose handlers contain an assignment to [this.open]: the
    press on the trigger (line 196), focusout on either element (line 176,
    in the part of the handler that runs after the await), keydown (line
    260) and the expiry of a timer, which runs one of the closures (lines
    176, 301, 321); and the owner of a controlled [open]. *)
Definition writesOpen (ev : Event) : bool :=
  match ev with
  | TriggerPointerDown | TriggerFocusOut | ContentFocusOut
  | KeyDown _ | TimerFires _ _ | OwnerSets _ => true
  | _ => false
  end.

(* ------------------------------------------------------------------ *)
(** * Properties *)

(** Unfolding a handler on a tooltip given field by field. *)
Ltac crush_state s :=
  destruct s as [pr so orr ck ipt ipc ima ot ct mo w];
  cbv [Tooltip.closeTooltip Tooltip.openTooltip Tooltip.clearOpenTimeout
       Tooltip.clearCloseTimeout Tooltip.clearTimeout Window.setTimeout
       Tooltip.set_open Tooltip.set_open_sync Tooltip.set_openReason
       Tooltip.set_clickedTrigger Tooltip.set_isPointerInsideTrigger
       Tooltip.set_isPointerInsideContent Tooltip.set_isMouseInTooltipArea
       Tooltip.set_openTimeout Tooltip.set_closeTimeout Tooltip.set_mounted
       Tooltip.set_window Tooltip.open Tooltip.props Tooltip.synced_open
       Tooltip.openReason Tooltip.clickedTrigger Tooltip.isPointerInsideTrigger
       Tooltip.isPointerInsideContent Tooltip.isMouseInTooltipArea
       Tooltip.openTimeout Tooltip.closeTimeout Tooltip.mounted
       Tooltip.window] in *.

(** ** Geometry of the grace area *)
Section GraceArea.
Import Geometry.

Lemma wsum_cross (a b : Point) (ws : list Z) :
  forall pts, List.length ws = List.length pts ->
    wsum (cross a b) ws pts =
      (px b - px a) * (wsum py ws pts - total ws * py a)
      - (py b - py a) * (wsum px ws pts - total ws * px a).
Proof.
  induction ws as [|w ws IH]; intros [|c pts] Hlen; simpl in *; try discriminate.
  - ring.
  - injection Hlen as Hlen. rewrite (IH _ Hlen). unfold cross. ring.
Qed.

Lemma wsum_nonneg (f : Point -> Z) (ws : list Z) :
  Forall (fun w => 0 <= w) ws ->
  forall pts, (forall c, In c pts -> 0 <= f c) -> 0 <= wsum f ws pts.
Proof.
  induction 1 as [|w ws Hw _ IH]; intros pts Hf; simpl.
  - lia.
  - destruct pts as [|c pts]; [lia|].
    assert (0 <= f c) by (apply Hf; now left).
    assert (0 <= wsum f ws pts) by (apply IH; intros; apply Hf; now right).
    nia.
Qed.

Lemma wsum_opp (f : Point -> Z) (ws : list Z) :
  forall pts, wsum (fun c => - f c) ws pts = - wsum f ws pts.
Proof.
  induction ws as [|w ws IH]; intros [|c pts]; simpl; try reflexivity.
  rewrite IH. ring.
Qed.

Lemma wsum_total_zero (f : Point -> Z) (ws : list Z) :
  Forall (fun w => 0 <= w) ws -> total ws = 0 ->
  forall pts, wsum f ws pts = 0.
Proof.
  induction 1 as [|w ws Hw Hws IH]; intros Ht pts; simpl in *; [reflexivity|].
  assert (0 <= total ws) as Hnn.
  { clear -Hws. induction Hws as [|v vs Hv _ IHv]; simpl; lia. }
  destruct pts as [|c pts]; [reflexivity|].
  rewrite IH by lia. assert (w = 0) as -> by lia. ring.
Qed.

(** A weighted mean is not below the least of its points. *)
Lemma wsum_min (f : Point -> Z) (ws : list Z) :
  Forall (fun w => 0 <= w) ws ->
  forall pts, List.length ws = List.length pts -> 0 < total ws ->
    exists c, In c pts /\ total ws * f c <= wsum f ws pts.
Proof.
  induction 1 as [|w ws Hw Hws IH]; intros pts Hlen Ht; simpl in *; [lia|].
  destruct pts as [|c pts]; [discriminate|]. injection Hlen as Hlen.
  assert (0 <= total ws) as Hnn.
  { clear -Hws. induction Hws as [|v vs Hv _ IHv]; simpl; lia. }
  destruct (Z.eq_dec (total ws) 0) as [Hz|Hz].
  - exists c. split; [now left|].
    rewrite (wsum_total_zero f ws Hws Hz pts), Hz. lia.
  - destruct (IH pts Hlen) as (c' & Hin & Hle); [lia|].
    destruct (Z.le_gt_cases (f c) (f c')).
    + exists c. split; [now left|]. nia.
    + exists c'. split; [now right|]. nia.
Qed.

Lemma supports_spec (pts : list Point) (e : Point * Point) :
  supports pts e = true ->
  forall c, In c pts -> 0 <= cross (fst e) (snd e) c.
Proof.
  unfold supports. intros H c Hc.
  rewrite forallb_forall in H. specialize (H c Hc). lia.
Qed.

(** Every corner point is a vertex of the hull's boundary list. *)
Lemma vertices_makeHull (pts : list Point) (a : Point) :
  In a pts -> In a (map fst (makeHull pts)).
Proof.
  intros Ha. apply in_map_iff. exists (a, a). split; [reflexivity|].
  unfold makeHull. apply filter_In. split.
  - apply in_prod; assumption.
  - unfold supports. apply forallb_forall. intros c _. simpl.
    apply Z.leb_le. unfold cross. lia.
Qed.

Lemma inBounds_intro (p : Point) (vs : list Point) (a b c d : Point) :
  In a vs -> In b vs -> In c vs -> In d vs ->
  px a <= px p -> px p <= px b -> py c <= py p -> py p <= py d ->
  inBounds p vs = true.
Proof.
  intros Ha Hb Hc Hd H1 H2 H3 H4. unfold inBounds.
  repeat (apply andb_true_iff; split); apply existsb_exists.
  - exists a. split; [assumption | now apply Z.leb_le].
  - exists b. split; [assumption | now apply Z.leb_le].
  - exists c. split; [assumption | now apply Z.leb_le].
  - exists d. split; [assumption | now apply Z.leb_le].
Qed.

(** Every convex combination of the corner points passes the test. *)
Lemma hull_sound (pts : list Point) (p : Point) :
  in_convex_hull pts p -> pointInPolygon p (makeHull pts) = true.
Proof.
  intros (ws & Hlen & Hpos & Htot & Hx & Hy).
  unfold pointInPolygon. apply andb_true_iff. split.
  - destruct (wsum_min px ws Hpos pts Hlen Htot) as (a & Ha & Hale).
    destruct (wsum_min (fun c => - px c) ws Hpos pts Hlen Htot) as (b & Hb & Hble).
    destruct (wsum_min py ws Hpos pts Hlen Htot) as (c & Hc & Hcle).
    destruct (wsum_min (fun c => - py c) ws Hpos pts Hlen Htot) as (d & Hd & Hdle).
    rewrite wsum_opp in Hble, Hdle.
    apply (inBounds_intro p _ a b c d); try (now apply vertices_makeHull); nia.
  - unfold makeHull. apply forallb_forall.
    intros [a b] He. apply filter_In in He as [_ Hs]. simpl.
    pose proof (wsum_nonneg (cross a b) ws Hpos pts (supports_spec pts (a, b) Hs)) as Hge.
    rewrite (wsum_cross a b ws pts Hlen), <- Hx, <- Hy in Hge.
    apply Z.leb_le. unfold cross. nia.
Qed.

(** A function that is affine in the point and non-negative at the four
    corners of a rectangle is non-negative on the rectangle. *)
Lemma cross_on_rect (a b : Point) (r : Rect) (p : Point) :
  inRect r p ->
  (forall c, In c (getPointsFromEl r) -> 0 <= cross a b c) ->
  0 <= cross a b p.
Proof.
  intros [[Hl Hr] [Ht Hb]] Hc.
  pose proof (Hc _ (or_introl eq_refl)) as H1.
  pose proof (Hc _ (or_intror (or_introl eq_refl))) as H2.
  pose proof (Hc _ (or_intror (or_intror (or_introl eq_refl)))) as H3.
  pose proof (Hc _ (or_intror (or_intror (or_intror (or_introl eq_refl))))) as H4.
  unfold cross in *; simpl in *.
  destruct (Z.le_gt_cases 0 (px b - px a)), (Z.le_gt_cases 0 (py b - py a)); nia.
Qed.

(** Every point of one of the rectangles passes the test of their hull. *)
Lemma rect_in_hull (els : list Rect) (r : Rect) (p : Point) :
  In r els -> inRect r p ->
  pointInPolygon p (makeHullFromElements els) = true.
Proof.
  intros Hr Hp. unfold pointInPolygon, makeHullFromElements.
  assert (forall c, In c (getPointsFromEl r) ->
                    In c (flat_map getPointsFromEl els)) as Hsub
    by (intros c Hc; apply in_flat_map; exists r; split; assumption).
  apply andb_true_iff. split.
  - destruct Hp as [[Hl Hr'] [Ht Hb]].
    apply (inBounds_intro p _
             (mkPoint (left r) (top r)) (mkPoint (right r) (top r))
             (mkPoint (left r) (top r)) (mkPoint (right r) (bottom r)));
      try (apply vertices_makeHull, Hsub; simpl; tauto); assumption.
  - unfold makeHull. apply forallb_forall.
    intros [a b] He. apply filter_In in He as [_ Hs]. simpl.
    apply Z.leb_le. apply (cross_on_rect a b r p Hp).
    intros c Hc. apply (supports_spec _ (a, b) Hs). now apply Hsub.
Qed.

Lemma vertices_of_makeHull (pts : list Point) (a : Point) :
  In a (map fst (makeHull pts)) -> In a pts.
Proof.
  intros Ha. apply in_map_iff in Ha as ([u v] & <- & Hin).
  unfold makeHull in Hin. apply filter_In in Hin as [Hin _].
  apply in_prod_iff in Hin. tauto.
Qed.

Lemma inBounds_single (p q : Point) (vs : list Point) :
  inBounds p vs = true -> (forall a, In a vs -> a = q) -> p = q.
Proof.
  unfold inBounds. intros H Hq.
  apply andb_true_iff in H as [H H4]. apply andb_true_iff in H as [H H3].
  apply andb_true_iff in H as [H1 H2].
  apply existsb_exists in H1 as (a1 & I1 & E1). apply (Hq a1) in I1. subst a1.
  apply existsb_exists in H2 as (a2 & I2 & E2). apply (Hq a2) in I2. subst a2.
  apply existsb_exists in H3 as (a3 & I3 & E3). apply (Hq a3) in I3. subst a3.
  apply existsb_exists in H4 as (a4 & I4 & E4). apply (Hq a4) in I4. subst a4.
  apply Z.leb_le in E1, E2, E3, E4.
  destruct p as [u v], q as [x y]; simpl in *. f_equal; lia.
Qed.

(** The hull of a rectangle of no extent is its one point: nothing else
    passes the test. *)
Lemma hull_of_a_point (x y : Z) (p : Point) :
  pointInPolygon p (makeHullFromElements [mkRect x y x y]) = true <->
  p = mkPoint x y.
Proof.
  split.
  - unfold pointInPolygon. intros H. apply andb_true_iff in H as [H _].
    apply (inBounds_single p _ _ H). intros a Ha.
    apply vertices_of_makeHull in Ha. simpl in Ha.
    repeat destruct Ha as [<-|Ha]; try reflexivity. destruct Ha.
  - intros ->. apply rect_in_hull with (r := mkRect x y x y);
      [now left | unfold inRect; simpl; lia].
Qed.

End GraceArea.

(** ** The timer table *)
Section TimerTable.
Import Window.

Lemma In_clearTimeout (h : positive) (w : Window.t) (x : Timer) :
  In x (timers (clearTimeout h w)) <-> In x (timers w) /\ handle x <> h.
Proof.
  unfold clearTimeout; simpl. rewrite filter_In.
  destruct (Pos.eqb_spec (handle x) h); simpl; intuition congruence.
Qed.

Lemma NoDup_map_filter {A B : Type} (f : A -> B) (g : A -> bool) (l : list A) :
  NoDup (map f l) -> NoDup (map f (filter g l)).
Proof.
  induction l as [|a l IH]; simpl; intros H; [constructor|].
  inversion H as [|? ? Hn Hd]; subst.
  destruct (g a); simpl; auto.
  constructor; auto.
  intros Hin. apply Hn. apply in_map_iff in Hin as (y & Hy & Hin).
  apply in_map_iff. exists y. split; auto. apply filter_In in Hin. tauto.
Qed.

Lemma NoDup_map_inj {A B : Type} (f : A -> B) (l : list A) (x y : A) :
  NoDup (map f l) -> In x l -> In y l -> f x = f y -> x = y.
Proof.
  induction l as [|a l IH]; simpl; intros H Hx Hy E; [tauto|].
  inversion H as [|? ? Hn Hd]; subst.
  destruct Hx as [->|Hx], Hy as [->|Hy]; auto.
  - exfalso. apply Hn. rewrite E. now apply in_map.
  - exfalso. apply Hn. rewrite <- E. now apply in_map.
Qed.

Lemma lookup_In (h : positive) (w : Window.t) (x : Timer) :
  lookup h w = Some x -> In x (timers w) /\ handle x = h.
Proof.
  unfold lookup. intros H. apply find_some in H as [Hin E].
  split; auto. now apply Pos.eqb_eq.
Qed.

Lemma In_lookup (h : positive) (w : Window.t) (x : Timer) :
  NoDup (map handle (timers w)) -> In x (timers w) -> handle x = h ->
  lookup h w = Some x.
Proof.
  intros Hnd Hin E. unfold lookup.
  destruct (find (fun y => Pos.eqb (handle y) h) (timers w)) as [y|] eqn:F.
  - apply find_some in F as [Hy Ey]. apply Pos.eqb_eq in Ey.
    f_equal. apply (NoDup_map_inj handle (timers w)); congruence.
  - exfalso. apply (find_none _ _ F) in Hin. apply Pos.eqb_neq in Hin. auto.
Qed.

Variables dOpen dClose : Z.

Lemma ok_empty : TimersOk dOpen dClose None None Window.empty.
Proof.
  constructor; simpl; try tauto; try discriminate.
  constructor.
Qed.

Lemma ok_clear_open (h : positive) (ct : option positive) (w : Window.t) :
  TimersOk dOpen dClose (Some h) ct w ->
  TimersOk dOpen dClose None ct (clearTimeout h w).
Proof.
  intros [Hnd Hfr Hop Hcl Hpo Hpc Hex]. constructor.
  - now apply NoDup_map_filter.
  - intros x Hx. apply In_clearTimeout in Hx as [Hx _]. now apply Hfr.
  - intros x Hx Ho. apply In_clearTimeout in Hx as [Hx Hne].
    destruct (Hop x Hx Ho) as [E _]. congruence.
  - intros x Hx Hc. apply In_clearTimeout in Hx as [Hx _]. now apply Hcl.
  - discriminate.
  - intros h' E. destruct Hex; congruence.
  - now left.
Qed.

Lemma ok_clear_close (h : positive) (ot : option positive) (w : Window.t) :
  TimersOk dOpen dClose ot (Some h) w ->
  TimersOk dOpen dClose ot None (clearTimeout h w).
Proof.
  intros [Hnd Hfr Hop Hcl Hpo Hpc Hex]. constructor.
  - now apply NoDup_map_filter.
  - intros x Hx. apply In_clearTimeout in Hx as [Hx _]. now apply Hfr.
  - intros x Hx Ho. apply In_clearTimeout in Hx as [Hx _]. now apply Hop.
  - intros x Hx Hc. apply In_clearTimeout in Hx as [Hx Hne].
    destruct (Hcl x Hx Hc) as [E _]. congruence.
  - intros h' E. destruct Hex; congruence.
  - discriminate.
  - now right.
Qed.

Lemma NoDup_handles_snoc (w : Window.t) (d : Z) (cb : Callback) :
  NoDup (map handle (timers w)) ->
  (forall x, In x (timers w) -> (handle x < nextHandle w)%positive) ->
  NoDup (map handle (timers w ++ [mkTimer (nextHandle w) d cb])).
Proof.
  intros Hnd Hfr. rewrite map_app. simpl.
  apply NoDup_app; [assumption | repeat constructor; simpl; tauto |].
  intros a Ha [<-|[]]. apply in_map_iff in Ha as (x & E & Hx).
  specialize (Hfr x Hx). simpl in E. lia.
Qed.

Lemma ok_schedule_open (r : OpenReason) (w : Window.t) :
  TimersOk dOpen dClose None None w ->
  TimersOk dOpen dClose (Some (nextHandle w)) None
           (snd (setTimeout (OpenCb r) dOpen w)).
Proof.
  intros [Hnd Hfr Hop Hcl Hpo Hpc Hex]. constructor; simpl.
  - now apply NoDup_handles_snoc.
  - intros x Hx. apply in_app_iff in Hx as [Hx|[<-|[]]]; simpl; [|lia].
    specialize (Hfr x Hx). lia.
  - intros x Hx Ho. apply in_app_iff in Hx as [Hx|[<-|[]]]; simpl; auto.
    destruct (Hop x Hx Ho); discriminate.
  - intros x Hx Hc. apply in_app_iff in Hx as [Hx|[<-|[]]]; simpl; auto.
    discriminate.
  - intros h E. injection E as <-. exists r. apply in_app_iff. right. now left.
  - discriminate.
  - now right.
Qed.

Lemma ok_schedule_close (b : bool) (w : Window.t) :
  TimersOk dOpen dClose None None w ->
  TimersOk dOpen dClose None (Some (nextHandle w))
           (snd (setTimeout (CloseCb b) dClose w)).
Proof.
  intros [Hnd Hfr Hop Hcl Hpo Hpc Hex]. constructor; simpl.
  - now apply NoDup_handles_snoc.
  - intros x Hx. apply in_app_iff in Hx as [Hx|[<-|[]]]; simpl; [|lia].
    specialize (Hfr x Hx). lia.
  - intros x Hx Ho. apply in_app_iff in Hx as [Hx|[<-|[]]]; simpl; auto.
    discriminate.
  - intros x Hx Hc. apply in_app_iff in Hx as [Hx|[<-|[]]]; simpl; auto.
    destruct (Hcl x Hx Hc); discriminate.
  - discriminate.
  - intros h E. injection E as <-. exists b. apply in_app_iff. right. now left.
  - now left.
Qed.

Lemma ok_schedule_focusout (ot ct : option positive) (d : Z) (w : Window.t) :
  TimersOk dOpen dClose ot ct w ->
  TimersOk dOpen dClose ot ct (snd (setTimeout FocusOutCb d w)).
Proof.
  intros [Hnd Hfr Hop Hcl Hpo Hpc Hex]. constructor; simpl.
  - now apply NoDup_handles_snoc.
  - intros x Hx. apply in_app_iff in Hx as [Hx|[<-|[]]]; simpl; [|lia].
    specialize (Hfr x Hx). lia.
  - intros x Hx Ho. apply in_app_iff in Hx as [Hx|[<-|[]]]; auto. discriminate.
  - intros x Hx Hc. apply in_app_iff in Hx as [Hx|[<-|[]]]; auto. discriminate.
  - intros h E. destruct (Hpo h E) as [r Hr]. exists r. apply in_app_iff. now left.
  - intros h E. destruct (Hpc h E) as [b Hb]. exists b. apply in_app_iff. now left.
  - assumption.
Qed.

Lemma ok_expire_focusout (ot ct : option positive) (h : positive)
      (x : Timer) (w : Window.t) :
  TimersOk dOpen dClose ot ct w ->
  lookup h w = Some x -> callback x = FocusOutCb ->
  TimersOk dOpen dClose ot ct (clearTimeout h w).
Proof.
  intros [Hnd Hfr Hop Hcl Hpo Hpc Hex] Hl Hcb.
  apply lookup_In in Hl as [Hx Hh]. constructor.
  - now apply NoDup_map_filter.
  - intros y Hy. apply In_clearTimeout in Hy as [Hy _]. now apply Hfr.
  - intros y Hy Ho. apply In_clearTimeout in Hy as [Hy _]. now apply Hop.
  - intros y Hy Hc. apply In_clearTimeout in Hy as [Hy _]. now apply Hcl.
  - intros h' E. destruct (Hpo h' E) as [r Hr]. exists r.
    apply In_clearTimeout. split; auto. simpl. intros ->. subst h.
    assert (x = mkTimer (handle x) dOpen (OpenCb r)) as Hsame
      by (apply (NoDup_map_inj handle (timers w)); auto).
    rewrite Hsame in Hcb. discriminate.
  - intros h' E. destruct (Hpc h' E) as [b Hb]. exists b.
    apply In_clearTimeout. split; auto. simpl. intros ->. subst h.
    assert (x = mkTimer (handle x) dClose (CloseCb b)) as Hsame
      by (apply (NoDup_map_inj handle (timers w)); auto).
    rewrite Hsame in Hcb. discriminate.
  - assumption.
Qed.

(** At most one close closure and at most one open closure are pending. *)
Lemma ok_one_pending (ot ct : option positive) (w : Window.t) :
  TimersOk dOpen dClose ot ct w ->
  (List.length (pendingOpens w) <= 1)%nat /\ (List.length (pendingCloses w) <= 1)%nat.
Proof.
  intros [Hnd Hfr Hop Hcl Hpo Hpc Hex].
  assert (forall (g : Timer -> bool) (o : option positive),
            (forall x, In x (timers w) -> g x = true -> o = Some (handle x)) ->
            (List.length (filter g (timers w)) <= 1)%nat) as Hone.
  { intros g o Hg.
    assert (NoDup (map handle (filter g (timers w)))) as Hn by now apply NoDup_map_filter.
    assert (forall x, In x (filter g (timers w)) -> o = Some (handle x)) as Ho
      by (intros x Hx; apply filter_In in Hx as [? ?]; auto).
    destruct (filter g (timers w)) as [|x [|y l]]; simpl; try lia.
    exfalso. inversion Hn as [|? ? Hni _]; subst. apply Hni. left.
    pose proof (Ho x (or_introl eq_refl)). pose proof (Ho y (or_intror (or_introl eq_refl))).
    congruence. }
  split.
  - apply (Hone isOpenCb ot). intros x Hx Hg. now destruct (Hop x Hx Hg).
  - apply (Hone isCloseCb ct). intros x Hx Hg. now destruct (Hcl x Hx Hg).
Qed.

End TimerTable.

(** ** The invariant is kept by every handler *)
Section Invariant.
Import Tooltip.

Ltac unfold_tooltip :=
  unfold Inv, openDelay, closeDelay, clearTimeout, set_open,
    set_open_sync, set_openReason, set_clickedTrigger,
    set_isPointerInsideTrigger, set_isPointerInsideContent,
    set_isMouseInTooltipArea, set_openTimeout, set_closeTimeout, set_mounted,
    set_window, Window.setTimeout in *; cbn [props synced_open openReason clickedTrigger
    isPointerInsideTrigger isPointerInsideContent isMouseInTooltipArea
    openTimeout closeTimeout mounted window] in *.

Lemma Inv_new (p : Props.t) : Inv (new p Window.empty).
Proof. unfold Inv, new; simpl. apply ok_empty. Qed.

Lemma Inv_clearOpenTimeout (s : t) :
  Inv s -> Inv (clearOpenTimeout s) /\ openTimeout (clearOpenTimeout s) = None
           /\ closeTimeout (clearOpenTimeout s) = closeTimeout s.
Proof.
  intros H. unfold clearOpenTimeout.
  destruct (openTimeout s) as [h|] eqn:E; unfold_tooltip.
  - rewrite E in H. split; [|split]; auto. now apply ok_clear_open.
  - rewrite E in H |- *. auto.
Qed.

Lemma Inv_clearCloseTimeout (s : t) :
  Inv s -> Inv (clearCloseTimeout s) /\ closeTimeout (clearCloseTimeout s) = None
           /\ openTimeout (clearCloseTimeout s) = openTimeout s.
Proof.
  intros H. unfold clearCloseTimeout.
  destruct (closeTimeout s) as [h|] eqn:E; unfold_tooltip.
  - rewrite E in H. split; [|split]; auto. now apply ok_clear_close.
  - rewrite E in H |- *. auto.
Qed.

Lemma Inv_openTooltip (reason : OpenReason) (s : t) :
  Inv s -> Inv (openTooltip reason s).
Proof.
  intros H. unfold openTooltip.
  destruct (Inv_clearCloseTimeout s H) as (H1 & Hc & Ho).
  set (s1 := clearCloseTimeout s) in *.
  destruct (openTimeout s1) as [h|] eqn:E; auto.
  unfold_tooltip. rewrite E, Hc in H1. rewrite Hc.
  now apply (ok_schedule_open _ _ reason).
Qed.

Lemma Inv_closeTooltip (isBlur : bool) (s : t) :
  Inv s -> Inv (closeTooltip isBlur s).
Proof.
  intros H. unfold closeTooltip.
  destruct (Inv_clearOpenTimeout s H) as (H1 & Ho & Hc).
  set (s1 := clearOpenTimeout s) in *.
  destruct (isBlur && isMouseInTooltipArea s1); [exact H1|].
  destruct (closeTimeout s1) as [h|] eqn:E; auto.
  unfold_tooltip. rewrite E, Ho in H1. rewrite Ho.
  now apply (ok_schedule_close _ _ isBlur).
Qed.

Lemma Inv_set_open (v : bool) (s : t) : Inv s -> Inv (set_open v s).
Proof. intros H; exact H. Qed.

Lemma Inv_fire (h : positive) (doc : Dom.Document) (s : t) :
  Inv s -> Inv (fire h doc s).
Proof.
  intros H. unfold fire.
  destruct (Window.lookup h (window s)) as [x|] eqn:L; auto.
  pose proof (lookup_In _ _ _ L) as [Hin Hh].
  destruct (Window.callback x) as [r|b|] eqn:C.
  - unfold runOpenCb. unfold_tooltip.
    destruct (ok_opens _ _ _ _ _ H x Hin) as [E _];
      [unfold Window.isOpenCb; now rewrite C|].
    rewrite E, Hh in H. now apply ok_clear_open.
  - assert (closeTimeout s = Some h) as E.
    { destruct (ok_closes _ _ _ _ _ H x Hin) as [E _];
        [unfold Window.isCloseCb; now rewrite C|]. congruence. }
    unfold runCloseCb. destruct b; unfold_tooltip;
      rewrite E in H; now apply ok_clear_close.
  - unfold runFocusOutCb.
    destruct (containsActiveElement (Dom.contentEl doc)
              || containsActiveElement (Dom.triggerEl doc));
      unfold_tooltip; now apply (ok_expire_focusout _ _ _ _ h x).
Qed.

Lemma Inv_dispatch (s : t) (ev : Event) : Inv s -> Inv (dispatch s ev).
Proof.
  intros H. destruct ev; simpl.
  - unfold Trigger.onpointerdown. destruct (closeOnPointerDown s); simpl; auto.
    apply Inv_clearOpenTimeout. exact H.
  - unfold Trigger.onpointerenter. destruct (Dom.isTouch pointerType); auto.
    apply Inv_openTooltip. exact H.
  - unfold Trigger.onpointerleave. destruct (Dom.isTouch pointerType); auto.
    apply Inv_clearOpenTimeout. exact H.
  - unfold Trigger.onfocus. destruct (clickedTrigger s); auto.
    now apply Inv_openTooltip.
  - now apply Inv_closeTooltip.
  - unfold onfocusout. unfold_tooltip. now apply ok_schedule_focusout.
  - exact H.
  - apply Inv_openTooltip. exact H.
  - exact H.
  - now apply Inv_openTooltip.
  - unfold onfocusout. unfold_tooltip. now apply ok_schedule_focusout.
  - exact H.
  - unfold onmousemove. destruct (open s); simpl; auto.
    destruct (Dom.contentEl doc), (Dom.triggerEl doc);
      try (now apply Inv_closeTooltip).
    match goal with |- context [set_isMouseInTooltipArea ?v s] =>
      generalize v end.
    intros v. cbn [openReason set_isMouseInTooltipArea isMouseInTooltipArea].
    destruct (openReason s) as [[|]|]; auto.
    destruct v; simpl; auto. now apply Inv_closeTooltip.
  - unfold handleScroll. destruct (open s); simpl; auto.
    destruct target; auto.
    rewrite orb_true_r. now apply Inv_closeTooltip.
  - unfold onkeydown. destruct (negb (String.eqb key "Escape")); auto.
    apply Inv_set_open. apply Inv_clearOpenTimeout. exact H.
  - now apply Inv_fire.
  - exact H.
  - unfold ownerSets. destruct (Synced.external (synced_open s)); exact H.
Qed.

Lemma reachable_Inv (p : Props.t) (s : t) : reachable p s -> Inv s.
Proof.
  induction 1 as [|s ev _ IH].
  - apply Inv_new.
  - now apply Inv_dispatch.
Qed.

End Invariant.

(** ** What the two scheduling paths do to a consistent tooltip *)
Section Scheduling.
Import Tooltip.

Lemma reachable_run (p : Props.t) (evs : list Event) :
  forall s, reachable p s -> reachable p (run s evs).
Proof.
  induction evs as [|ev evs IH]; intros s H; simpl; auto.
  apply IH. now constructor.
Qed.

Lemma pendingOpens_nil (s : t) :
  Inv s -> openTimeout s = None -> Window.pendingOpens (window s) = [].
Proof.
  intros H E. unfold Window.pendingOpens.
  destruct (filter Window.isOpenCb (Window.timers (window s))) as [|x l] eqn:F; auto.
  assert (In x (filter Window.isOpenCb (Window.timers (window s)))) as Hx
    by (rewrite F; now left).
  apply filter_In in Hx as [Hx Ho].
  destruct (ok_opens _ _ _ _ _ H x Hx Ho). congruence.
Qed.

Lemma pendingCloses_nil (s : t) :
  Inv s -> closeTimeout s = None -> Window.pendingCloses (window s) = [].
Proof.
  intros H E. unfold Window.pendingCloses.
  destruct (filter Window.isCloseCb (Window.timers (window s))) as [|x l] eqn:F; auto.
  assert (In x (filter Window.isCloseCb (Window.timers (window s)))) as Hx
    by (rewrite F; now left).
  apply filter_In in Hx as [Hx Hc].
  destruct (ok_closes _ _ _ _ _ H x Hx Hc). congruence.
Qed.

Lemma clearOpenTimeout_idle (s : t) :
  openTimeout s = None -> clearOpenTimeout s = s.
Proof. intros E. unfold clearOpenTimeout. now rewrite E. Qed.

Lemma clearCloseTimeout_idle (s : t) :
  closeTimeout s = None -> clearCloseTimeout s = s.
Proof. intros E. unfold clearCloseTimeout. now rewrite E. Qed.

(** A pending open makes a further open request a no-op. *)
Lemma openTooltip_pending (reason : OpenReason) (s : t) (h : positive) :
  Inv s -> openTimeout s = Some h -> openTooltip reason s = s.
Proof.
  intros H E. destruct (ok_exclusive _ _ _ _ _ H) as [E'|E']; [congruence|].
  unfold openTooltip. rewrite (clearCloseTimeout_idle s E'). now rewrite E.
Qed.

(** A pending close makes a further close request leave the timers alone. *)
Lemma closeTooltip_pending (isBlur : bool) (s : t) (h : positive) :
  Inv s -> closeTimeout s = Some h ->
  closeTimeout (closeTooltip isBlur s) = Some h /\
  openTimeout (closeTooltip isBlur s) = None /\
  window (closeTooltip isBlur s) = window s.
Proof.
  intros H E. destruct (ok_exclusive _ _ _ _ _ H) as [E'|E']; [|congruence].
  unfold closeTooltip. rewrite (clearOpenTimeout_idle s E').
  destruct (isBlur && isMouseInTooltipArea s); [now crush_state s|].
  rewrite E. auto.
Qed.

Lemma open_closeTooltip (isBlur : bool) (s : t) :
  synced_open (closeTooltip isBlur s) = synced_open s.
Proof.
  crush_state s. destruct ot, ct, isBlur, ima; reflexivity.
Qed.

Lemma closeTooltip_twice (s : t) :
  closeTooltip false (closeTooltip false s) = closeTooltip false s.
Proof.
  crush_state s. destruct ot, ct; reflexivity.
Qed.

Lemma handleScroll_node (doc : Dom.Document) (c : bool) (s : t) :
  handleScroll doc (Dom.NodeTarget c) s = if open s then closeTooltip false s else s.
Proof.
  unfold handleScroll. destruct (open s); simpl; auto.
  now rewrite orb_true_r.
Qed.

End Scheduling.

(** ** The claims *)
Section Claims.
Import Tooltip.

(** C5.  In every reachable state at most one of [openTimeout] and
    [closeTimeout] is non-null; the timer table never holds an open and a
    close closure together, and at most one of each.  Requesting an open cancels the pending close
    and, if an open is already pending, changes nothing (no reset); requesting
    a close cancels the pending open and, if a close is already pending,
    leaves the table as it is.  Two scroll events in a row behave as one:
    the second changes nothing and at most one close closure is pending. *)
Theorem timers_mutually_exclusive (p : Props.t) (s : t) :
  reachable p s ->
  (openTimeout s = None \/ closeTimeout s = None) /\
  (Window.pendingOpens (window s) = [] \/ Window.pendingCloses (window s) = []) /\
  (List.length (Window.pendingOpens (window s)) <= 1)%nat /\
  (List.length (Window.pendingCloses (window s)) <= 1)%nat /\
  (forall reason,
      closeTimeout (openTooltip reason s) = None /\
      Window.pendingCloses (window (openTooltip reason s)) = [] /\
      (forall h, openTimeout s = Some h -> openTooltip reason s = s)) /\
  (forall isBlur,
      openTimeout (closeTooltip isBlur s) = None /\
      Window.pendingOpens (window (closeTooltip isBlur s)) = [] /\
      (forall h, closeTimeout s = Some h ->
                 closeTimeout (closeTooltip isBlur s) = Some h /\
                 window (closeTooltip isBlur s) = window s)) /\
  (forall doc1 c1 doc2 c2,
      let once := dispatch s (Scroll doc1 (Dom.NodeTarget c1)) in
      dispatch once (Scroll doc2 (Dom.NodeTarget c2)) = once /\
      (List.length (Window.pendingCloses (window once)) <= 1)%nat).
Proof.
  intros Hr. pose proof (reachable_Inv p s Hr) as H.
  split; [exact (ok_exclusive _ _ _ _ _ H)|].
  split.
  { destruct (ok_exclusive _ _ _ _ _ H) as [E|E].
    - left. now apply pendingOpens_nil.
    - right. now apply pendingCloses_nil. }
  split; [apply (ok_one_pending _ _ _ _ _ H)|].
  split; [apply (ok_one_pending _ _ _ _ _ H)|].
  split; [|split].
  - intros reason.
    assert (closeTimeout (openTooltip reason s) = None) as Hc.
    { unfold openTooltip. destruct (Inv_clearCloseTimeout s H) as (_ & Hc & _).
      destruct (openTimeout (clearCloseTimeout s)); auto. }
    split; [exact Hc|]. split.
    + apply pendingCloses_nil; auto. now apply Inv_openTooltip.
    + intros h. now apply openTooltip_pending.
  - intros isBlur.
    assert (openTimeout (closeTooltip isBlur s) = None) as Ho.
    { unfold closeTooltip. destruct (Inv_clearOpenTimeout s H) as (_ & Ho & _).
      destruct (isBlur && isMouseInTooltipArea (clearOpenTimeout s)); auto.
      destruct (closeTimeout (clearOpenTimeout s)); auto. }
    split; [exact Ho|]. split.
    + apply pendingOpens_nil; auto. now apply Inv_closeTooltip.
    + intros h E. destruct (closeTooltip_pending isBlur s h H E) as (? & _ & ?). auto.
  - intros doc1 c1 doc2 c2 once. subst once. simpl. split.
    + rewrite !handleScroll_node. unfold open.
      destruct (Synced.current (synced_open s)) eqn:E.
      * rewrite open_closeTooltip, E. apply closeTooltip_twice.
      * now rewrite E.
    + pose proof (Inv_dispatch s (Scroll doc1 (Dom.NodeTarget c1)) H) as H'.
      apply (ok_one_pending _ _ _ _ _ H').
Qed.

Lemma timers_mutually_exclusive_witness :
  let s := Scenario.closingSlowly in
  let s1 := Scenario.hovering in
  (reachable Scenario.slowProps s /\ closeTimeout s = Some 2%positive /\
   reachable Props.default s1 /\ openTimeout s1 = Some 1%positive) /\
  ((openTimeout s = None \/ closeTimeout s = None) /\
   (Window.pendingOpens (window s) = [] \/ Window.pendingCloses (window s) = []) /\
   (List.length (Window.pendingOpens (window s)) <= 1)%nat /\
   (List.length (Window.pendingCloses (window s)) <= 1)%nat) /\
  (closeTimeout (closeTooltip true s) = Some 2%positive /\
   window (closeTooltip true s) = window s) /\
  openTooltip focus s1 = s1 /\
  (forall doc1 c1 doc2 c2,
      let once := dispatch s (Scroll doc1 (Dom.NodeTarget c1)) in
      dispatch once (Scroll doc2 (Dom.NodeTarget c2)) = once /\
      (List.length (Window.pendingCloses (window once)) <= 1)%nat).
Proof.
  intros s s1.
  assert (reachable Scenario.slowProps s) as Hr
    by (apply reachable_run; constructor).
  assert (reachable Props.default s1) as Hr1
    by (apply reachable_run; constructor).
  destruct (timers_mutually_exclusive Scenario.slowProps s Hr)
    as (A & B & C & D & _ & F & G).
  destruct (timers_mutually_exclusive Props.default s1 Hr1)
    as (_ & _ & _ & _ & E1 & _).
  split; [repeat split; assumption|].
  split; [repeat split; assumption|].
  split; [exact (proj2 (proj2 (F true)) 2%positive eq_refl)|].
  split; [exact (proj2 (proj2 (E1 focus)) 1%positive eq_refl)|].
  exact G.
Defined.

(** C1.  The claim that every path that sets open to false leaves openReason
    null does not hold of the code: only the close timer resets it.  A tooltip
    opened from the keyboard and closed by Escape, by a press on the trigger
    or by the focus-out handler is closed, has no timer pending, and still has
    openReason = focus; a later hover then opens it with reason focus. *)
Theorem closed_with_stale_reason :
  let byEscape := dispatch Scenario.openedByFocus (KeyDown "Escape") in
  let byPress := dispatch Scenario.openedByFocus TriggerPointerDown in
  let byFocusOut :=
    run Scenario.openedByFocus [TriggerFocusOut; TimerFires 2 Scenario.page] in
  let reopened :=
    run byEscape [TriggerPointerEnter Dom.mouse; TimerFires 2 Scenario.page] in
  (open Scenario.openedByFocus = true /\
   openReason Scenario.openedByFocus = Some focus) /\
  (open byEscape = false /\ Window.timers (window byEscape) = [] /\
   openReason byEscape = Some focus) /\
  (open byPress = false /\ Window.timers (window byPress) = [] /\
   openReason byPress = Some focus) /\
  (open byFocusOut = false /\ Window.timers (window byFocusOut) = [] /\
   openReason byFocusOut = Some focus) /\
  (open reopened = true /\ openReason reopened = Some focus).
Proof. vm_compute. repeat split; reflexivity. Qed.

(** C2, as stated, fails: Escape does not cancel a pending close timer.  With
    closeDelay = 2000, a tooltip that is open with a close already requested
    keeps that timer in the table after Escape. *)
Lemma escape_keeps_close_timer :
  ~ (forall p s, reachable p s -> Synced.uncontrolled (synced_open s) ->
       open s = true ->
       let s' := dispatch s (KeyDown "Escape") in
       open s' = false /\ openTimeout s' = None /\ closeTimeout s' = None).
Proof.
  intros H.
  assert (reachable Scenario.slowProps Scenario.closingSlowly) as Hr
    by (apply reachable_run; constructor).
  specialize (H _ _ Hr eq_refl eq_refl). vm_compute in H.
  destruct H as (_ & _ & H). discriminate.
Qed.

Lemma pendingCloses_clearOpenTimeout (s : t) :
  Inv s ->
  Window.pendingCloses (window (clearOpenTimeout s)) = Window.pendingCloses (window s).
Proof.
  intros H. destruct (openTimeout s) as [h|] eqn:E.
  - destruct (ok_exclusive _ _ _ _ _ H) as [E'|E']; [congruence|].
    destruct (Inv_clearOpenTimeout s H) as (H1 & _ & Hc).
    rewrite (pendingCloses_nil s H E').
    apply pendingCloses_nil; congruence.
  - now rewrite clearOpenTimeout_idle.
Qed.

Lemma nextHandle_clearOpenTimeout (s : t) :
  Window.nextHandle (window (clearOpenTimeout s)) = Window.nextHandle (window s).
Proof. unfold clearOpenTimeout. destruct (openTimeout s); reflexivity. Qed.

(** C2, amended.  In every reachable state of an uncontrolled tooltip,
    Escape sets open to false in the handler itself, whatever closeDelay is:
    nothing is scheduled.  It cancels the pending open timer; a pending close
    timer is left as it is. *)
Theorem escape_closes_at_once (p : Props.t) (s : t) :
  reachable p s -> Synced.uncontrolled (synced_open s) ->
  let s' := dispatch s (KeyDown "Escape") in
  open s' = false /\
  openTimeout s' = None /\ Window.pendingOpens (window s') = [] /\
  closeTimeout s' = closeTimeout s /\
  Window.pendingCloses (window s') = Window.pendingCloses (window s) /\
  Window.nextHandle (window s') = Window.nextHandle (window s).
Proof.
  intros Hr Hu s'. pose proof (reachable_Inv p s Hr) as H.
  subst s'. simpl. unfold onkeydown. simpl.
  destruct (Inv_clearOpenTimeout s H) as (H1 & Ho & Hc).
  assert (synced_open (clearOpenTimeout s) = synced_open s) as Hs
    by (unfold clearOpenTimeout; destruct (openTimeout s); reflexivity).
  split; [|split; [|split; [|split; [|split]]]].
  - unfold open, set_open, set_open_sync, Synced.current, Synced.set_current.
    simpl. rewrite Hs. unfold Synced.uncontrolled in Hu. rewrite Hu. reflexivity.
  - exact Ho.
  - apply (pendingOpens_nil (clearOpenTimeout s) H1 Ho).
  - exact Hc.
  - apply pendingCloses_clearOpenTimeout; exact H.
  - apply nextHandle_clearOpenTimeout.
Qed.

Lemma escape_closes_at_once_witness :
  let s := Scenario.closingSlowly in
  let s' := dispatch s (KeyDown "Escape") in
  (reachable Scenario.slowProps s /\ Synced.uncontrolled (synced_open s)) /\
  open s' = false /\
  openTimeout s' = None /\ Window.pendingOpens (window s') = [] /\
  closeTimeout s' = closeTimeout s /\
  Window.pendingCloses (window s') = Window.pendingCloses (window s) /\
  Window.nextHandle (window s') = Window.nextHandle (window s).
Proof.
  intros s s'.
  assert (reachable Scenario.slowProps s) as Hr
    by (apply reachable_run; constructor).
  split; [split; [exact Hr | reflexivity]|].
  exact (escape_closes_at_once Scenario.slowProps s Hr eq_refl).
Defined.

(** C3, as stated, fails on the content element: its pointerenter handler
    does not look at the pointer type, so a touch pointerenter on the content
    of a fresh tooltip starts the open timer. *)
Lemma touch_enter_on_content_starts_open :
  ~ (forall s ev, isTouchHover ev = true ->
       openTimeout (dispatch s ev) = openTimeout s /\
       window (dispatch s ev) = window s).
Proof.
  intros H.
  destruct (H Scenario.fresh (ContentPointerEnter Dom.touch) eq_refl) as [H1 _].
  vm_compute in H1. discriminate.
Qed.

(** C3, amended.  A touch pointerenter or pointerleave on the trigger, and a
    pointerleave on the content, only record where the pointer is: no timer
    is started or cancelled and open is not written.  A pointerenter on the
    content requests an open whatever the pointer type. *)
Theorem touch_hover_on_trigger_is_inert (s : t) (ev : Event) :
  isTouchHover ev = true -> ev <> ContentPointerEnter Dom.touch ->
  openTimeout (dispatch s ev) = openTimeout s /\
  closeTimeout (dispatch s ev) = closeTimeout s /\
  window (dispatch s ev) = window s /\
  synced_open (dispatch s ev) = synced_open s /\
  openReason (dispatch s ev) = openReason s /\
  (forall pt, dispatch s (ContentPointerEnter pt) =
              openTooltip pointer (set_isPointerInsideContent true s)).
Proof.
  intros Ht Hne.
  destruct ev; try discriminate; simpl in Ht;
    try (destruct pointerType; try discriminate).
  - repeat split.
  - repeat split.
  - congruence.
  - repeat split.
Qed.

Lemma touch_hover_on_trigger_is_inert_witness :
  let s := Scenario.openedByFocus in
  let ev := TriggerPointerLeave Dom.touch in
  (isTouchHover ev = true /\ ev <> ContentPointerEnter Dom.touch) /\
  openTimeout (dispatch s ev) = openTimeout s /\
  closeTimeout (dispatch s ev) = closeTimeout s /\
  window (dispatch s ev) = window s /\
  synced_open (dispatch s ev) = synced_open s /\
  openReason (dispatch s ev) = openReason s /\
  (forall pt, dispatch s (ContentPointerEnter pt) =
              openTooltip pointer (set_isPointerInsideContent true s)).
Proof.
  intros s ev. split; [split; [reflexivity | discriminate]|].
  apply (touch_hover_on_trigger_is_inert s ev); [reflexivity | discriminate].
Defined.

(** C4.  The claim that a scroll whose target does not contain the trigger
    leaves the tooltip unchanged does not hold of the code: the condition at
    line 336 ends in [|| this.open], which is true at that point.  On an open
    tooltip a scroll of an element that does not contain the trigger schedules
    the close, exactly as a scroll of one that contains it. *)
Theorem scroll_elsewhere_closes :
  let s := Scenario.openedByFocus in
  let elsewhere := dispatch s (Scroll Scenario.page (Dom.NodeTarget false)) in
  let around := dispatch s (Scroll Scenario.page (Dom.NodeTarget true)) in
  open s = true /\ closeTimeout s = None /\ Window.timers (window s) = [] /\
  closeTimeout elsewhere = Some 2%positive /\
  Window.timers (window elsewhere) = [Window.mkTimer 2 (closeDelay s) (CloseCb false)] /\
  elsewhere = around.
Proof. vm_compute. repeat split; reflexivity. Qed.

(** Inside the hull, the mousemove listener only records that the pointer is
    in the tooltip area. *)
Lemma onmousemove_inside (s : t) (doc : Dom.Document) (tr co : Dom.Element)
      (e : Geometry.Point) :
  open s = true -> disableHoverableContent s = false ->
  Dom.triggerEl doc = Some tr -> Dom.contentEl doc = Some co ->
  Geometry.in_convex_hull
    (Geometry.getPointsFromEl (Dom.rect tr) ++ Geometry.getPointsFromEl (Dom.rect co)) e
  \/ Geometry.inRect (Dom.rect tr) e \/ Geometry.inRect (Dom.rect co) e ->
  onmousemove doc e s = set_isMouseInTooltipArea true s.
Proof.
  intros Ho Hd Ht Hc Hin.
  assert (Geometry.isPointerInGraceArea e
            (Geometry.makeHullFromElements [Dom.rect tr; Dom.rect co]) = true) as Hg.
  { unfold Geometry.isPointerInGraceArea. destruct Hin as [Hin|[Hin|Hin]].
    - unfold Geometry.makeHullFromElements. cbn [flat_map]. rewrite app_nil_r.
      now apply hull_sound.
    - apply (rect_in_hull _ (Dom.rect tr)); simpl; auto.
    - apply (rect_in_hull _ (Dom.rect co)); simpl; auto. }
  unfold onmousemove. rewrite Ho, Ht, Hc, Hd. cbv zeta. rewrite Hg.
  rewrite !orb_true_r. simpl.
  destruct (openReason s) as [[|]|]; reflexivity.
Qed.

(** C6, as stated, fails when disableHoverableContent is set: the hull is
    then built from the trigger alone, and a sample in the gap between
    trigger and content, inside the hull of both, schedules the close. *)
Lemma hull_of_trigger_alone_closes_in_gap :
  ~ (forall s doc tr co e,
       open s = true -> openReason s = Some pointer ->
       Dom.triggerEl doc = Some tr -> Dom.contentEl doc = Some co ->
       Geometry.in_convex_hull
         (Geometry.getPointsFromEl (Dom.rect tr) ++
          Geometry.getPointsFromEl (Dom.rect co)) e ->
       closeTimeout (dispatch s (MouseMove doc e)) = closeTimeout s).
Proof.
  intros H.
  specialize (H Scenario.openedTriggerOnly Scenario.page _ _
                (Geometry.mkPoint 25 30) eq_refl eq_refl eq_refl eq_refl).
  assert (closeTimeout
            (dispatch Scenario.openedTriggerOnly
                      (MouseMove Scenario.page (Geometry.mkPoint 25 30)))
          = Some 2%positive) as E by (vm_compute; reflexivity).
  rewrite E in H.
  assert (Some 2%positive = closeTimeout Scenario.openedTriggerOnly) as F.
  { apply H. exists [0; 0; 1; 1; 1; 1; 0; 0]. vm_compute.
    repeat split; try reflexivity. repeat constructor; discriminate. }
  vm_compute in F. discriminate.
Qed.

(** C6, amended.  With disableHoverableContent off and both elements in the
    document, an open tooltip crosses the grace area untouched: along a path
    of mousemove samples that each lie in the convex hull of the corners of
    the trigger and content rectangles, or in one of the two rectangles,
    after every sample the tooltip is still open, its reason is the same and
    no timer was started or cancelled. *)
Theorem grace_area_keeps_open (s : t) (doc : Dom.Document) (tr co : Dom.Element)
        (path : list Geometry.Point) :
  open s = true -> disableHoverableContent s = false ->
  Dom.triggerEl doc = Some tr -> Dom.contentEl doc = Some co ->
  Forall (fun e =>
            Geometry.in_convex_hull
              (Geometry.getPointsFromEl (Dom.rect tr) ++
               Geometry.getPointsFromEl (Dom.rect co)) e
            \/ Geometry.inRect (Dom.rect tr) e \/ Geometry.inRect (Dom.rect co) e)
         path ->
  forall n,
    let s' := run s (map (MouseMove doc) (firstn n path)) in
    open s' = true /\ openReason s' = openReason s /\
    openTimeout s' = openTimeout s /\ closeTimeout s' = closeTimeout s /\
    window s' = window s.
Proof.
  intros Ho Hd Ht Hc Hp n s'. subst s'.
  assert (Forall (fun e =>
            Geometry.in_convex_hull
              (Geometry.getPointsFromEl (Dom.rect tr) ++
               Geometry.getPointsFromEl (Dom.rect co)) e
            \/ Geometry.inRect (Dom.rect tr) e \/ Geometry.inRect (Dom.rect co) e)
            (firstn n path)) as Hn.
  { rewrite Forall_forall in *. intros e He. apply Hp.
    rewrite <- (firstn_skipn n path). apply in_app_iff. now left. }
  clear Hp. revert s Ho Hd. induction Hn as [|e l He _ IH]; intros s Ho Hd.
  - simpl. auto.
  - simpl. rewrite (onmousemove_inside s doc tr co e Ho Hd Ht Hc He).
    apply (IH (set_isMouseInTooltipArea true s)); assumption.
Qed.

Lemma grace_area_keeps_open_witness :
  let s := Scenario.openedByPointer in
  let tr := Dom.mkElement Scenario.triggerRect false in
  let co := Dom.mkElement Scenario.contentRect false in
  (open s = true /\ disableHoverableContent s = false /\
   Dom.triggerEl Scenario.page = Some tr /\ Dom.contentEl Scenario.page = Some co /\
   Forall (fun e =>
             Geometry.in_convex_hull
               (Geometry.getPointsFromEl (Dom.rect tr) ++
                Geometry.getPointsFromEl (Dom.rect co)) e
             \/ Geometry.inRect (Dom.rect tr) e \/ Geometry.inRect (Dom.rect co) e)
          Scenario.crossing) /\
  forall n,
    let s' := run s (map (MouseMove Scenario.page) (firstn n Scenario.crossing)) in
    open s' = true /\ openReason s' = openReason s /\
    openTimeout s' = openTimeout s /\ closeTimeout s' = closeTimeout s /\
    window s' = window s.
Proof.
  intros s tr co.
  assert (Forall (fun e =>
             Geometry.in_convex_hull
               (Geometry.getPointsFromEl (Dom.rect tr) ++
                Geometry.getPointsFromEl (Dom.rect co)) e
             \/ Geometry.inRect (Dom.rect tr) e \/ Geometry.inRect (Dom.rect co) e)
          Scenario.crossing) as Hp.
  { apply Forall_cons; [|apply Forall_cons; [|apply Forall_cons; [|apply Forall_nil]]].
    - right. left. vm_compute. repeat split; discriminate.
    - left. exists [0; 0; 1; 1; 1; 1; 0; 0]. vm_compute.
      repeat split; try reflexivity. repeat constructor; discriminate.
    - right. right. vm_compute. repeat split; discriminate. }
  split; [repeat split; try reflexivity; exact Hp|].
  exact (grace_area_keeps_open s Scenario.page tr co Scenario.crossing
           eq_refl eq_refl eq_refl eq_refl Hp).
Defined.

(** A write to an uncontrolled [Synced] is read back. *)
Lemma Synced_write (v : bool) (x : Synced.t) :
  Synced.uncontrolled x -> Synced.current (Synced.set_current v x) = v.
Proof.
  unfold Synced.uncontrolled, Synced.current, Synced.set_current.
  intros E. now rewrite E.
Qed.

(** *** Frame lemmas: what the scheduling paths leave alone *)

Lemma openTooltip_frame (reason : OpenReason) (s : t) :
  openReason (openTooltip reason s) = openReason s /\
  synced_open (openTooltip reason s) = synced_open s /\
  clickedTrigger (openTooltip reason s) = clickedTrigger s /\
  props (openTooltip reason s) = props s.
Proof. crush_state s. destruct ct, ot; repeat split. Qed.

Lemma clearOpenTimeout_frame (s : t) :
  openReason (clearOpenTimeout s) = openReason s /\
  synced_open (clearOpenTimeout s) = synced_open s /\
  clickedTrigger (clearOpenTimeout s) = clickedTrigger s /\
  isMouseInTooltipArea (clearOpenTimeout s) = isMouseInTooltipArea s /\
  props (clearOpenTimeout s) = props s.
Proof. crush_state s. destruct ot; repeat split. Qed.

Lemma closeTooltip_frame (isBlur : bool) (s : t) :
  clickedTrigger (closeTooltip isBlur s) = clickedTrigger s /\
  props (closeTooltip isBlur s) = props s /\
  openReason (closeTooltip isBlur s) =
    (if isBlur && isMouseInTooltipArea s then Some pointer else openReason s).
Proof. crush_state s. destruct ot, ct, isBlur, ima; repeat split. Qed.

Lemma fire_callback (h : positive) (doc : Dom.Document) (s : t) (x : Window.Timer) :
  Window.lookup h (window s) = Some x ->
  fire h doc s =
    match Window.callback x with
    | OpenCb reason => runOpenCb reason (clearTimeout h s)
    | CloseCb isBlur => runCloseCb isBlur (clearTimeout h s)
    | FocusOutCb => runFocusOutCb doc (clearTimeout h s)
    end.
Proof. intros L. unfold fire. now rewrite L. Qed.

(** An open request on a tooltip with no open pending puts its closure,
    with its reason, in the table under the handle it stores. *)
Lemma openTooltip_idle (reason : OpenReason) (s : t) :
  Inv s -> openTimeout s = None ->
  exists h,
    openTimeout (openTooltip reason s) = Some h /\
    Window.lookup h (window (openTooltip reason s))
      = Some (Window.mkTimer h (openDelay s) (OpenCb reason)).
Proof.
  intros H E. pose proof (Inv_openTooltip reason s H) as H'.
  destruct (Inv_clearCloseTimeout s H) as (_ & _ & Ho).
  assert (props (clearCloseTimeout s) = props s) as Hp
    by (unfold clearCloseTimeout; destruct (closeTimeout s); reflexivity).
  unfold openTooltip in *. rewrite Ho, E in *.
  exists (Window.nextHandle (window (clearCloseTimeout s))).
  split; [reflexivity|].
  apply In_lookup; [exact (ok_nodup _ _ _ _ _ H') | | reflexivity].
  cbn. apply in_app_iff. right. left.
  unfold openDelay. now rewrite Hp.
Qed.

(** C7, as stated, fails in its general part: a blur on the trigger while
    the pointer is in the tooltip area overwrites the reason of a tooltip
    that stays open.  Opened from the keyboard, mouse resting in the gap,
    then blur: open is still true and the reason went from focus to pointer. *)
Lemma blur_overwrites_reason :
  ~ (forall s ev r,
       open s = true -> openReason s = Some r ->
       open (dispatch s ev) = true -> openReason (dispatch s ev) = Some r).
Proof.
  intros H.
  specialize (H Scenario.focusedAndHovered TriggerBlur focus
                eq_refl eq_refl eq_refl).
  vm_compute in H. discriminate.
Qed.

(** C7, amended.  In a reachable state with no open pending and a null
    reason, a non-touch pointerenter on the trigger schedules the open; a
    focus on the trigger before the timer fires changes nothing (no second
    timer, no reset), and when the timer fires openReason is pointer.  A
    reason that is set is never overwritten by an open request or by the
    open timer: an event leaves it as it is, except a blur on the trigger
    with the pointer in the tooltip area (it becomes pointer) and the close
    timer firing (it becomes null). *)
Theorem open_reason_sticky (p : Props.t) (s : t) :
  reachable p s ->
  (forall pt doc,
      Dom.isTouch pt = false -> openTimeout s = None -> openReason s = None ->
      let entered := dispatch s (TriggerPointerEnter pt) in
      dispatch entered TriggerFocus = entered /\
      exists h,
        openTimeout entered = Some h /\
        openReason (dispatch entered (TimerFires h doc)) = Some pointer /\
        (Synced.uncontrolled (synced_open s) ->
         open (dispatch entered (TimerFires h doc)) = true)) /\
  (forall ev r,
      openReason s = Some r ->
      openReason (dispatch s ev) = Some r
      \/ (ev = TriggerBlur /\ isMouseInTooltipArea s = true /\
          openReason (dispatch s ev) = Some pointer)
      \/ (exists h doc x isBlur,
            ev = TimerFires h doc /\
            Window.lookup h (window s) = Some x /\
            Window.callback x = CloseCb isBlur /\
            openReason (dispatch s ev) = None)).
Proof.
  intros Hr. pose proof (reachable_Inv p s Hr) as H. split.
  - intros pt doc Hpt Eo En entered. subst entered. simpl.
    unfold Trigger.onpointerenter. rewrite Hpt.
    set (s0 := set_isPointerInsideTrigger true s).
    assert (Inv s0) as H0 by exact H.
    destruct (openTooltip_idle pointer s0 H0 Eo) as (h & Eh & L).
    pose proof (Inv_openTooltip pointer s0 H0) as H1.
    destruct (openTooltip_frame pointer s0) as (Fr & Fs & _ & _).
    split.
    + unfold Trigger.onfocus. destruct (clickedTrigger (openTooltip pointer s0)); auto.
      now apply (openTooltip_pending focus _ h).
    + exists h. split; [exact Eh|].
      rewrite (fire_callback h doc _ _ L). cbn [Window.callback].
      split.
      * unfold runOpenCb. cbn. rewrite Fr. unfold s0. cbn. now rewrite En.
      * intros Hu. unfold runOpenCb, open.
        cbn. rewrite Fs. unfold s0. cbn. now apply Synced_write.
  - intros ev r E. destruct ev; cbn [dispatch].
    + left. unfold Trigger.onpointerdown. cbv zeta.
      destruct (closeOnPointerDown s); cbn [negb]; auto.
      destruct (clearOpenTimeout_frame
                  (set_clickedTrigger true (set_open false s))) as (Fr & _).
      rewrite Fr. exact E.
    + left. unfold Trigger.onpointerenter. cbv zeta. destruct (Dom.isTouch pointerType); auto.
      destruct (openTooltip_frame pointer (set_isPointerInsideTrigger true s)) as (Fr & _).
      rewrite Fr. exact E.
    + left. unfold Trigger.onpointerleave. cbv zeta. destruct (Dom.isTouch pointerType); auto.
      destruct (clearOpenTimeout_frame (set_isPointerInsideTrigger false s)) as (Fr & _).
      rewrite Fr. exact E.
    + left. unfold Trigger.onfocus. destruct (clickedTrigger s); auto.
      destruct (openTooltip_frame focus s) as (Fr & _). now rewrite Fr.
    + unfold Trigger.onblur.
      destruct (closeTooltip_frame true s) as (_ & _ & Fr). rewrite Fr.
      cbn [andb]. destruct (isMouseInTooltipArea s) eqn:M; auto.
    + left. exact E.
    + left. exact E.
    + left. unfold Content.onpointerenter. cbv zeta.
      destruct (openTooltip_frame pointer (set_isPointerInsideContent true s)) as (Fr & _).
      rewrite Fr. exact E.
    + left. exact E.
    + left. unfold Content.onpointerdown.
      destruct (openTooltip_frame pointer s) as (Fr & _). now rewrite Fr.
    + left. exact E.
    + left. exact E.
    + left. unfold onmousemove. destruct (open s); cbn [negb]; auto.
      assert (openReason (closeTooltip false s) = Some r) as Ec.
      { destruct (closeTooltip_frame false s) as (_ & _ & Fr). now rewrite Fr. }
      destruct (Dom.contentEl doc), (Dom.triggerEl doc); auto.
      cbv zeta.
      match goal with |- context [set_isMouseInTooltipArea ?v s] => generalize v end.
      intros v.
      assert (openReason (set_isMouseInTooltipArea v s) = Some r) as Ev by exact E.
      rewrite Ev. destruct r; auto.
      destruct (negb (isMouseInTooltipArea (set_isMouseInTooltipArea v s))); auto.
      destruct (closeTooltip_frame false (set_isMouseInTooltipArea v s)) as (_ & _ & Fr).
      now rewrite Fr.
    + left. unfold handleScroll. destruct (open s); cbn [negb]; auto.
      destruct target; auto. rewrite orb_true_r.
      destruct (closeTooltip_frame false s) as (_ & _ & Fr). now rewrite Fr.
    + left. unfold onkeydown. cbv zeta. destruct (negb (String.eqb key "Escape")); auto.
      destruct (clearOpenTimeout_frame s) as (Fr & _).
      change (openReason (clearOpenTimeout s) = Some r). now rewrite Fr.
    + destruct (Window.lookup h (window s)) as [x|] eqn:L.
      * rewrite (fire_callback h doc s x L).
        destruct (Window.callback x) as [reason|isBlur|] eqn:C.
        -- left. unfold runOpenCb. cbn. now rewrite E.
        -- right. right. exists h, doc, x, isBlur.
           repeat split; auto. unfold runCloseCb. destruct isBlur; reflexivity.
        -- left. unfold runFocusOutCb.
           destruct (containsActiveElement (Dom.contentEl doc)
                     || containsActiveElement (Dom.triggerEl doc)); exact E.
      * left. unfold fire. now rewrite L.
    + left. exact E.
    + left. unfold ownerSets. destruct (Synced.external (synced_open s)); exact E.
Qed.

Lemma open_reason_sticky_witness :
  let s := Scenario.fresh in
  let entered := dispatch s (TriggerPointerEnter Dom.mouse) in
  let s1 := Scenario.focusedAndHovered in
  (reachable Props.default s /\ Dom.isTouch Dom.mouse = false /\
   openTimeout s = None /\ openReason s = None /\
   reachable Props.default s1 /\ openReason s1 = Some focus) /\
  (dispatch entered TriggerFocus = entered /\
   exists h,
     openTimeout entered = Some h /\
     openReason (dispatch entered (TimerFires h Scenario.page)) = Some pointer /\
     (Synced.uncontrolled (synced_open s) ->
      open (dispatch entered (TimerFires h Scenario.page)) = true)) /\
  (openReason (dispatch s1 (KeyDown "Escape")) = Some focus
   \/ (KeyDown "Escape" = TriggerBlur /\ isMouseInTooltipArea s1 = true /\
       openReason (dispatch s1 (KeyDown "Escape")) = Some pointer)
   \/ (exists h doc x isBlur,
         KeyDown "Escape" = TimerFires h doc /\
         Window.lookup h (window s1) = Some x /\
         Window.callback x = CloseCb isBlur /\
         openReason (dispatch s1 (KeyDown "Escape")) = None)).
Proof.
  intros s entered s1.
  assert (reachable Props.default s1) as Hr1
    by (unfold s1, Scenario.focusedAndHovered, Scenario.openedByFocus;
        repeat apply reachable_run; constructor).
  split; [repeat split; try reflexivity; [constructor | exact Hr1]|].
  split.
  - exact (proj1 (open_reason_sticky Props.default s (reachable_new Props.default))
             Dom.mouse Scenario.page eq_refl eq_refl eq_refl).
  - exact (proj2 (open_reason_sticky Props.default s1 Hr1)
             (KeyDown "Escape") focus eq_refl).
Defined.

(** A close request on a tooltip with no close pending, unless it is a blur
    with the pointer in the tooltip area, puts its closure in the table under
    a fresh handle, with the delay closeDelay. *)
Lemma closeTooltip_idle (isBlur : bool) (s : t) :
  Inv s -> closeTimeout s = None -> isBlur && isMouseInTooltipArea s = false ->
  closeTimeout (closeTooltip isBlur s) = Some (Window.nextHandle (window s)) /\
  Window.lookup (Window.nextHandle (window s)) (window (closeTooltip isBlur s))
    = Some (Window.mkTimer (Window.nextHandle (window s)) (closeDelay s) (CloseCb isBlur)).
Proof.
  intros H E B. pose proof (Inv_closeTooltip isBlur s H) as H'.
  destruct (Inv_clearOpenTimeout s H) as (_ & _ & Hc).
  destruct (clearOpenTimeout_frame s) as (_ & _ & _ & Hm & Hp).
  pose proof (nextHandle_clearOpenTimeout s) as Hn.
  unfold closeTooltip in *. rewrite Hm, B, Hc, E in *. rewrite <- Hn.
  split; [reflexivity|].
  apply In_lookup; [exact (ok_nodup _ _ _ _ _ H') | | reflexivity].
  cbn. apply in_app_iff. right. left.
  unfold closeDelay. now rewrite Hp.
Qed.

(** C8.  A blur on the trigger of an open tooltip, in a reachable state.
    With the pointer in the tooltip area the tooltip stays open, openReason
    becomes pointer and no close is scheduled: the close handle, the pending
    close closures and the handle counter are as before.  With the pointer
    outside, a close closure with delay closeDelay is pending afterwards
    under the stored handle; if none was pending before, it is a new one,
    scheduled by this blur. *)
Theorem blur_defers_to_hover (p : Props.t) (s : t) :
  reachable p s -> open s = true ->
  let s' := dispatch s TriggerBlur in
  (isMouseInTooltipArea s = true ->
     open s' = true /\ openReason s' = Some pointer /\
     closeTimeout s' = closeTimeout s /\
     Window.pendingCloses (window s') = Window.pendingCloses (window s) /\
     Window.nextHandle (window s') = Window.nextHandle (window s)) /\
  (isMouseInTooltipArea s = false ->
     open s' = true /\ openReason s' = openReason s /\
     exists h isBlur,
       closeTimeout s' = Some h /\
       Window.lookup h (window s')
         = Some (Window.mkTimer h (closeDelay s) (CloseCb isBlur)) /\
       (closeTimeout s = None ->
        isBlur = true /\ h = Window.nextHandle (window s))).
Proof.
  intros Hr Ho s'. subst s'. cbn [dispatch]. unfold Trigger.onblur.
  pose proof (reachable_Inv p s Hr) as H.
  assert (open (closeTooltip true s) = true) as Ho'
    by (unfold open in *; now rewrite open_closeTooltip).
  destruct (closeTooltip_frame true s) as (_ & _ & Fr). cbn [andb] in Fr.
  split; intros M; rewrite M in Fr.
  - split; [exact Ho'|]. split; [exact Fr|].
    assert (closeTooltip true s = set_openReason (Some pointer) (clearOpenTimeout s)) as E.
    { unfold closeTooltip. cbv zeta.
      destruct (clearOpenTimeout_frame s) as (_ & _ & _ & Hm & _).
      now rewrite Hm, M. }
    rewrite E.
    destruct (Inv_clearOpenTimeout s H) as (_ & _ & Hc).
    split; [exact Hc|]. split.
    + apply (pendingCloses_clearOpenTimeout s H).
    + apply nextHandle_clearOpenTimeout.
  - split; [exact Ho'|]. split; [exact Fr|].
    destruct (closeTimeout s) as [h|] eqn:E.
    + destruct (closeTooltip_pending true s h H E) as (Hc & _ & Hw).
      destruct (ok_close_pending _ _ _ _ _ H h E) as [b Hb].
      exists h, b. split; [exact Hc|]. split; [|discriminate].
      rewrite Hw. apply In_lookup; [exact (ok_nodup _ _ _ _ _ H) | exact Hb | reflexivity].
    + destruct (closeTooltip_idle true s H E) as (Hc & L); [now rewrite M|].
      exists (Window.nextHandle (window s)), true. auto.
Qed.

Lemma blur_defers_to_hover_witness :
  let s := Scenario.focusedAndHovered in
  let s' := dispatch s TriggerBlur in
  let s1 := Scenario.openedByFocus in
  let s1' := dispatch s1 TriggerBlur in
  (reachable Props.default s /\ open s = true /\ isMouseInTooltipArea s = true /\
   reachable Props.default s1 /\ open s1 = true /\ isMouseInTooltipArea s1 = false) /\
  (open s' = true /\ openReason s' = Some pointer /\
   closeTimeout s' = closeTimeout s /\
   Window.pendingCloses (window s') = Window.pendingCloses (window s) /\
   Window.nextHandle (window s') = Window.nextHandle (window s)) /\
  (open s1' = true /\ openReason s1' = openReason s1 /\
   exists h isBlur,
     closeTimeout s1' = Some h /\
     Window.lookup h (window s1')
       = Some (Window.mkTimer h (closeDelay s1) (CloseCb isBlur)) /\
     (closeTimeout s1 = None ->
      isBlur = true /\ h = Window.nextHandle (window s1))).
Proof.
  intros s s' s1 s1'.
  assert (reachable Props.default s1) as Hr1
    by (apply reachable_run; constructor).
  assert (reachable Props.default s) as Hr
    by (apply reachable_run; exact Hr1).
  split; [repeat split; assumption|].
  split.
  - exact (proj1 (blur_defers_to_hover Props.default s Hr eq_refl) eq_refl).
  - exact (proj2 (blur_defers_to_hover Props.default s1 Hr1 eq_refl) eq_refl).
Defined.

(** C9, as stated, fails when open is supplied by a getter: the press
    only notifies the owner, and open still reads what the getter returns.
    With a getter that returns true, open is true after the press. *)
Lemma press_leaves_controlled_open :
  ~ (forall p s, reachable p s -> closeOnPointerDown s = true ->
       open (dispatch s TriggerPointerDown) = false).
Proof.
  intros H.
  assert (reachable Scenario.controlledProps Scenario.controlledHovering) as Hr
    by (apply reachable_run; constructor).
  specialize (H _ _ Hr eq_refl). vm_compute in H. discriminate.
Qed.

(** C9, amended.  With closeOnPointerDown on, a press on the trigger, in a
    reachable state, writes false to open in the handler itself: no close is
    scheduled (the close handle, the pending close closures and the handle
    counter are as before).  On an uncontrolled tooltip open is false
    afterwards; with a getter the write is a notification of false to the
    owner and open reads what the getter returns.  In both cases the press
    cancels the pending open timer and sets clickedTrigger, and a focus on
    the trigger that follows changes nothing: it schedules no open. *)
Theorem pointerdown_closes_and_blocks_focus (p : Props.t) (s : t) :
  reachable p s -> closeOnPointerDown s = true ->
  let s' := dispatch s TriggerPointerDown in
  synced_open s' = Synced.set_current false (synced_open s) /\
  (Synced.uncontrolled (synced_open s) -> open s' = false) /\
  (forall v, Synced.external (synced_open s) = Some v ->
     open s' = v /\
     Synced.notified (synced_open s') = false :: Synced.notified (synced_open s)) /\
  clickedTrigger s' = true /\
  openTimeout s' = None /\ Window.pendingOpens (window s') = [] /\
  closeTimeout s' = closeTimeout s /\
  Window.pendingCloses (window s') = Window.pendingCloses (window s) /\
  Window.nextHandle (window s') = Window.nextHandle (window s) /\
  dispatch s' TriggerFocus = s'.
Proof.
  intros Hr Hc s'. subst s'. cbn [dispatch].
  unfold Trigger.onpointerdown. rewrite Hc. cbn [negb]. cbv zeta.
  set (s0 := set_clickedTrigger true (set_open false s)).
  assert (Inv s0) as H0 by exact (reachable_Inv p s Hr).
  destruct (Inv_clearOpenTimeout s0 H0) as (H1 & Eo & Ec).
  destruct (clearOpenTimeout_frame s0) as (_ & Fs & Fc & _ & _).
  assert (clickedTrigger (clearOpenTimeout s0) = true) as Hk by (now rewrite Fc).
  assert (synced_open (clearOpenTimeout s0)
          = Synced.set_current false (synced_open s)) as Es
    by (rewrite Fs; reflexivity).
  split; [exact Es|].
  split; [intros Hu; unfold open; rewrite Es; now apply Synced_write|].
  split.
  { intros v Hv. unfold open. rewrite Es.
    destruct (synced_open s) as [i e n]. cbn in Hv. subst e.
    split; reflexivity. }
  split; [exact Hk|]. split; [exact Eo|].
  split; [now apply pendingOpens_nil|].
  split; [exact Ec|].
  split; [apply (pendingCloses_clearOpenTimeout s0 H0)|].
  split; [apply (nextHandle_clearOpenTimeout s0)|].
  unfold Trigger.onfocus. now rewrite Hk.
Qed.

Lemma pointerdown_closes_and_blocks_focus_witness :
  let s := run Scenario.openedByFocus [TriggerPointerEnter Dom.mouse] in
  let s' := dispatch s TriggerPointerDown in
  let c := Scenario.controlledHovering in
  let c' := dispatch c TriggerPointerDown in
  (reachable Props.default s /\ closeOnPointerDown s = true /\
   Synced.uncontrolled (synced_open s) /\
   reachable Scenario.controlledProps c /\ closeOnPointerDown c = true /\
   Synced.external (synced_open c) = Some true) /\
  (open s' = false /\ clickedTrigger s' = true /\
   openTimeout s' = None /\ Window.pendingOpens (window s') = [] /\
   dispatch s' TriggerFocus = s') /\
  (open c' = true /\
   Synced.notified (synced_open c') = false :: Synced.notified (synced_open c) /\
   clickedTrigger c' = true /\
   openTimeout c' = None /\ Window.pendingOpens (window c') = [] /\
   dispatch c' TriggerFocus = c').
Proof.
  intros s s' c c'.
  assert (reachable Props.default s) as Hr
    by (unfold s, Scenario.openedByFocus; repeat apply reachable_run; constructor).
  assert (reachable Scenario.controlledProps c) as Hrc
    by (apply reachable_run; constructor).
  destruct (pointerdown_closes_and_blocks_focus Props.default s Hr eq_refl)
    as (_ & A2 & _ & A4 & A5 & A6 & _ & _ & _ & A10).
  destruct (pointerdown_closes_and_blocks_focus Scenario.controlledProps c Hrc eq_refl)
    as (_ & _ & B3 & B4 & B5 & B6 & _ & _ & _ & B10).
  destruct (B3 true eq_refl) as (B3a & B3b).
  split; [repeat split; assumption|].
  split; [repeat split; try assumption; exact (A2 eq_refl)|].
  repeat split; assumption.
Defined.

(** *** Where the closures in the table come from *)

Lemma timers_clearOpenTimeout (s : t) (x : Window.Timer) :
  In x (Window.timers (window (clearOpenTimeout s))) -> In x (Window.timers (window s)).
Proof.
  unfold clearOpenTimeout. destruct (openTimeout s); auto.
  cbn. intros Hx. apply filter_In in Hx. tauto.
Qed.

Lemma timers_closeTooltip (isBlur : bool) (s : t) (x : Window.Timer) :
  In x (Window.timers (window (closeTooltip isBlur s))) ->
  In x (Window.timers (window s)) \/ Window.callback x = CloseCb isBlur.
Proof.
  unfold closeTooltip. cbv zeta.
  destruct (isBlur && isMouseInTooltipArea (clearOpenTimeout s)).
  - intros Hx. left. now apply timers_clearOpenTimeout.
  - destruct (closeTimeout (clearOpenTimeout s)).
    + intros Hx. left. now apply timers_clearOpenTimeout.
    + cbn. intros Hx. apply in_app_iff in Hx as [Hx|[<-|[]]]; auto.
      left. now apply timers_clearOpenTimeout.
Qed.

Lemma timers_openTooltip (reason : OpenReason) (s : t) (x : Window.Timer) :
  In x (Window.timers (window (openTooltip reason s))) ->
  In x (Window.timers (window s)) \/ Window.callback x = OpenCb reason.
Proof.
  assert (forall y, In y (Window.timers (window (clearCloseTimeout s))) ->
                    In y (Window.timers (window s))) as Hsub.
  { unfold clearCloseTimeout. destruct (closeTimeout s); auto.
    cbn. intros y Hy. apply filter_In in Hy. tauto. }
  unfold openTooltip. cbv zeta. destruct (openTimeout (clearCloseTimeout s)).
  - intros Hx. left. now apply Hsub.
  - cbn. intros Hx. apply in_app_iff in Hx as [Hx|[<-|[]]]; auto.
Qed.

Lemma timers_fire (h : positive) (doc : Dom.Document) (s : t) (x : Window.Timer) :
  In x (Window.timers (window (fire h doc s))) -> In x (Window.timers (window s)).
Proof.
  unfold fire. destruct (Window.lookup h (window s)) as [y|]; auto.
  assert (In x (Window.timers (window (clearTimeout h s))) ->
          In x (Window.timers (window s))) as Hsub
    by (cbn; intros Hx; apply filter_In in Hx; tauto).
  destruct (Window.callback y) as [r|b|]; cbv zeta.
  - exact Hsub.
  - unfold runCloseCb. destruct b; exact Hsub.
  - unfold runFocusOutCb.
    destruct (containsActiveElement (Dom.contentEl doc)
              || containsActiveElement (Dom.triggerEl doc)); exact Hsub.
Qed.

(** A close closure that captured isBlur = true was put in the table by a
    blur on the trigger. *)
Lemma blur_closure_origin (s : t) (ev : Event) (x : Window.Timer) :
  In x (Window.timers (window (dispatch s ev))) ->
  Window.callback x = CloseCb true ->
  In x (Window.timers (window s)) \/ ev = TriggerBlur.
Proof.
  intros Hx C. destruct ev; cbn [dispatch] in Hx; auto.
  - left. unfold Trigger.onpointerdown in Hx.
    destruct (closeOnPointerDown s); cbn [negb] in Hx; auto.
    now apply timers_clearOpenTimeout in Hx.
  - left. unfold Trigger.onpointerenter in Hx.
    destruct (Dom.isTouch pointerType); auto.
    apply timers_openTooltip in Hx as [Hx|Hx]; [exact Hx | congruence].
  - left. unfold Trigger.onpointerleave in Hx.
    destruct (Dom.isTouch pointerType); auto.
    now apply timers_clearOpenTimeout in Hx.
  - left. unfold Trigger.onfocus in Hx. destruct (clickedTrigger s); auto.
    apply timers_openTooltip in Hx as [Hx|Hx]; [exact Hx | congruence].
  - left. cbn in Hx. apply in_app_iff in Hx as [Hx|[<-|[]]]; [exact Hx | discriminate].
  - left. unfold Content.onpointerenter in Hx.
    apply timers_openTooltip in Hx as [Hx|Hx]; [exact Hx | congruence].
  - left. unfold Content.onpointerdown in Hx.
    apply timers_openTooltip in Hx as [Hx|Hx]; [exact Hx | congruence].
  - left. cbn in Hx. apply in_app_iff in Hx as [Hx|[<-|[]]]; [exact Hx | discriminate].
  - left. unfold onmousemove in Hx. destruct (open s); cbn [negb] in Hx; auto.
    assert (In x (Window.timers (window (closeTooltip false s))) ->
            In x (Window.timers (window s))) as Hcl.
    { intros Hy. apply timers_closeTooltip in Hy as [Hy|Hy]; [exact Hy | congruence]. }
    destruct (Dom.contentEl doc), (Dom.triggerEl doc); auto.
    cbv zeta in Hx. revert Hx.
    match goal with |- context [set_isMouseInTooltipArea ?v s] => generalize v end.
    intros v.
    change (openReason (set_isMouseInTooltipArea v s)) with (openReason s).
    destruct (openReason s) as [[|]|]; auto.
    destruct (negb (isMouseInTooltipArea (set_isMouseInTooltipArea v s))); auto.
    intros Hy. apply timers_closeTooltip in Hy as [Hy|Hy]; [exact Hy | congruence].
  - left. unfold handleScroll in Hx. destruct (open s); cbn [negb] in Hx; auto.
    destruct target; auto. rewrite orb_true_r in Hx.
    apply timers_closeTooltip in Hx as [Hx|Hx]; [exact Hx | congruence].
  - left. unfold onkeydown in Hx. destruct (negb (String.eqb key "Escape")); auto.
    now apply (timers_clearOpenTimeout s).
  - left. now apply timers_fire in Hx.
  - left. unfold ownerSets in Hx. destruct (Synced.external (synced_open s)); exact Hx.
Qed.

(** C10.  Once clickedTrigger is set, a focus on the trigger changes
    nothing, and the flag stays set across every event except the firing of
    a close closure that captured isBlur = true; such a closure enters the
    table only through a blur on the trigger.  Closes requested by the
    mousemove check, by scroll or by Escape, and the focus-out handler, never
    reset it. *)
Theorem clickedTrigger_persists (s : t) (ev : Event) :
  clickedTrigger s = true ->
  dispatch s TriggerFocus = s /\
  (clickedTrigger (dispatch s ev) = true
   \/ exists h doc x,
        ev = TimerFires h doc /\
        Window.lookup h (window s) = Some x /\
        Window.callback x = CloseCb true) /\
  (forall x,
      In x (Window.timers (window (dispatch s ev))) ->
      Window.callback x = CloseCb true ->
      In x (Window.timers (window s)) \/ ev = TriggerBlur).
Proof.
  intros K. split; [|split].
  - cbn. unfold Trigger.onfocus. now rewrite K.
  - destruct ev; cbn [dispatch]; try (left; exact K).
    + left. unfold Trigger.onpointerdown.
      destruct (closeOnPointerDown s); cbn [negb]; auto. cbv zeta.
      destruct (clearOpenTimeout_frame
                  (set_clickedTrigger true (set_open false s))) as (_ & _ & Fc & _).
      now rewrite Fc.
    + left. unfold Trigger.onpointerenter. cbv zeta.
      destruct (Dom.isTouch pointerType); auto.
      destruct (openTooltip_frame pointer (set_isPointerInsideTrigger true s))
        as (_ & _ & Fc & _).
      now rewrite Fc.
    + left. unfold Trigger.onpointerleave. cbv zeta.
      destruct (Dom.isTouch pointerType); auto.
      destruct (clearOpenTimeout_frame (set_isPointerInsideTrigger false s))
        as (_ & _ & Fc & _).
      now rewrite Fc.
    + left. unfold Trigger.onfocus. now rewrite K.
    + left. unfold Trigger.onblur.
      destruct (closeTooltip_frame true s) as (Fc & _). now rewrite Fc.
    + left. unfold Content.onpointerenter. cbv zeta.
      destruct (openTooltip_frame pointer (set_isPointerInsideContent true s))
        as (_ & _ & Fc & _).
      now rewrite Fc.
    + left. unfold Content.onpointerdown.
      destruct (openTooltip_frame pointer s) as (_ & _ & Fc & _). now rewrite Fc.
    + left. unfold onmousemove. destruct (open s); cbn [negb]; auto.
      assert (forall s1, clickedTrigger s1 = true ->
                         clickedTrigger (closeTooltip false s1) = true) as Hcl.
      { intros s1 K1. destruct (closeTooltip_frame false s1) as (Fc & _).
        now rewrite Fc. }
      destruct (Dom.contentEl doc), (Dom.triggerEl doc); auto.
      cbv zeta.
      match goal with |- context [set_isMouseInTooltipArea ?v s] => generalize v end.
      intros v.
      change (openReason (set_isMouseInTooltipArea v s)) with (openReason s).
      destruct (openReason s) as [[|]|]; auto.
      destruct (negb (isMouseInTooltipArea (set_isMouseInTooltipArea v s))); auto.
    + left. unfold handleScroll. destruct (open s); cbn [negb]; auto.
      destruct target; auto. rewrite orb_true_r.
      destruct (closeTooltip_frame false s) as (Fc & _). now rewrite Fc.
    + left. unfold onkeydown. destruct (negb (String.eqb key "Escape")); auto. cbv zeta.
      destruct (clearOpenTimeout_frame s) as (_ & _ & Fc & _).
      change (clickedTrigger (clearOpenTimeout s) = true). now rewrite Fc.
    + destruct (Window.lookup h (window s)) as [x|] eqn:L.
      * rewrite (fire_callback h doc s x L).
        destruct (Window.callback x) as [reason|[|]|] eqn:C.
        -- left. exact K.
        -- right. exists h, doc, x. auto.
        -- left. exact K.
        -- left. unfold runFocusOutCb.
           destruct (containsActiveElement (Dom.contentEl doc)
                     || containsActiveElement (Dom.triggerEl doc)); exact K.
      * left. unfold fire. now rewrite L.
    + left. unfold ownerSets. destruct (Synced.external (synced_open s)); exact K.
  - intros x. apply blur_closure_origin.
Qed.

Lemma clickedTrigger_persists_witness :
  let s := dispatch Scenario.openedByFocus TriggerPointerDown in
  let ev := Scroll Scenario.page (Dom.NodeTarget true) in
  clickedTrigger s = true /\
  dispatch s TriggerFocus = s /\
  (clickedTrigger (dispatch s ev) = true
   \/ exists h doc x,
        ev = TimerFires h doc /\
        Window.lookup h (window s) = Some x /\
        Window.callback x = CloseCb true) /\
  (forall x,
      In x (Window.timers (window (dispatch s ev))) ->
      Window.callback x = CloseCb true ->
      In x (Window.timers (window s)) \/ ev = TriggerBlur).
Proof.
  intros s ev. split; [reflexivity|].
  exact (clickedTrigger_persists s ev eq_refl).
Defined.

End Claims.

(* ------------------------------------------------------------------ *)
(** * Further properties of the handlers *)

(** Unfolding one event on a tooltip given field by field, and splitting on
    every test the handler makes. *)
Ltac crush_handlers s :=
  destruct s as [pr so orr ck ipt ipc ima ot ct mo w];
  cbv [dispatch fire ownerSets
       Trigger.onpointerdown Trigger.onpointerenter Trigger.onpointerleave
       Trigger.onfocus Trigger.onblur Trigger.cleanup
       Content.onpointerenter Content.onpointerleave Content.onpointerdown
       Content.cleanup
       Tooltip.onfocusout Tooltip.onmousemove Tooltip.handleScroll
       Tooltip.onkeydown Tooltip.runOpenCb Tooltip.runCloseCb
       Tooltip.runFocusOutCb
       Tooltip.closeTooltip Tooltip.openTooltip Tooltip.clearOpenTimeout
       Tooltip.clearCloseTimeout Tooltip.clearTimeout Window.setTimeout
       Tooltip.set_open Tooltip.set_open_sync Tooltip.set_openReason
       Tooltip.set_clickedTrigger Tooltip.set_isPointerInsideTrigger
       Tooltip.set_isPointerInsideContent Tooltip.set_isMouseInTooltipArea
       Tooltip.set_openTimeout Tooltip.set_closeTimeout Tooltip.set_mounted
       Tooltip.set_window Tooltip.open Tooltip.props Tooltip.synced_open
       Tooltip.openReason Tooltip.clickedTrigger Tooltip.isPointerInsideTrigger
       Tooltip.isPointerInsideContent Tooltip.isMouseInTooltipArea
       Tooltip.openTimeout Tooltip.closeTimeout Tooltip.mounted
       Tooltip.window] in *;
  repeat match goal with
         | |- context [match ?x with _ => _ end] =>
             lazymatch type of x with
             | Tooltip.t => fail
             | _ => destruct x eqn:?; cbv beta iota
             end
         end.

Ltac crush_event s ev := destruct ev; crush_handlers s.

Section Frames.
Import Tooltip.

(** No handler touches the props. *)
Lemma props_dispatch (s : t) (ev : Event) : props (dispatch s ev) = props s.
Proof. crush_event s ev; reflexivity. Qed.

Lemma reachable_props (p : Props.t) (s : t) : reachable p s -> props s = p.
Proof.
  induction 1 as [|s ev _ IH]; [reflexivity|].
  now rewrite props_dispatch.
Qed.

Lemma mounted_dispatch (s : t) (ev : Event) :
  mounted (dispatch s ev) = match ev with Mounted => true | _ => mounted s end.
Proof. crush_event s ev; reflexivity. Qed.

Lemma lookup_cleared (h : positive) (w : Window.t) :
  Window.lookup h (Window.clearTimeout h w) = None.
Proof.
  unfold Window.lookup, Window.clearTimeout. cbn.
  induction (Window.timers w) as [|x l IH]; cbn; auto.
  destruct (Pos.eqb (Window.handle x) h) eqn:E; cbn; auto.
  now rewrite E.
Qed.

Lemma find_snoc {A : Type} (f : A -> bool) (l : list A) (a : A) :
  find f l = None -> find f (l ++ [a]) = if f a then Some a else None.
Proof.
  induction l as [|x l IH]; cbn; auto.
  destruct (f x); [discriminate | exact IH].
Qed.

(** Clearing a handle that is not in the table, or one that was handed out
    last, gives the table back. *)
Lemma filter_fresh (h : positive) (l : list Window.Timer) :
  (forall x, In x l -> (Window.handle x < h)%positive) ->
  filter (fun x => negb (Pos.eqb (Window.handle x) h)) l = l.
Proof.
  induction l as [|x l IH]; cbn; intros Hf; auto.
  assert (Pos.eqb (Window.handle x) h = false) as E.
  { apply Pos.eqb_neq. specialize (Hf x (or_introl eq_refl)). lia. }
  rewrite E. cbn. f_equal. apply IH. intros y Hy. apply Hf. now right.
Qed.

Lemma fire_dead (h : positive) (doc : Dom.Document) (s : t) :
  Window.lookup h (window s) = None -> dispatch s (TimerFires h doc) = s.
Proof. intros L. cbn. unfold fire. now rewrite L. Qed.

End Frames.

Section Extras.
Import Tooltip.

(** A close request that is not a blur over the tooltip area leaves a close
    closure with delay closeDelay pending under [closeTimeout], cancels the
    pending open and does not write [open]. *)
Lemma close_request_pending (isBlur : bool) (s : t) :
  Inv s -> isBlur && isMouseInTooltipArea s = false ->
  synced_open (closeTooltip isBlur s) = synced_open s /\
  openTimeout (closeTooltip isBlur s) = None /\
  exists h b,
    closeTimeout (closeTooltip isBlur s) = Some h /\
    Window.lookup h (window (closeTooltip isBlur s))
      = Some (Window.mkTimer h (closeDelay s) (CloseCb b)) /\
    (closeTimeout s = None -> b = isBlur /\ h = Window.nextHandle (window s)).
Proof.
  intros H B. split; [apply open_closeTooltip|].
  destruct (closeTimeout s) as [h|] eqn:E.
  - destruct (closeTooltip_pending isBlur s h H E) as (Hc & Ho & Hw).
    split; [exact Ho|].
    destruct (ok_close_pending _ _ _ _ _ H h E) as [b Hb].
    exists h, b. split; [exact Hc|]. split; [|discriminate].
    rewrite Hw. apply In_lookup; [exact (ok_nodup _ _ _ _ _ H) | exact Hb | reflexivity].
  - destruct (closeTooltip_idle isBlur s H E B) as (Hc & L).
    split.
    + pose proof (Inv_closeTooltip isBlur s H) as H'.
      destruct (ok_exclusive _ _ _ _ _ H') as [Ho|Ho]; [exact Ho | congruence].
    + exists (Window.nextHandle (window s)), isBlur. auto.
Qed.

(** X1.  In every reachable state a non-null handle names a pending timer:
    [openTimeout] the open closure, scheduled with openDelay, [closeTimeout]
    the close closure, scheduled with closeDelay; and every open or close
    closure in the table is the one its handle field names. *)
Theorem handles_name_pending_timers (p : Props.t) (s : t) :
  reachable p s ->
  (forall h, openTimeout s = Some h ->
     exists reason,
       Window.lookup h (window s)
         = Some (Window.mkTimer h (openDelay s) (OpenCb reason))) /\
  (forall h, closeTimeout s = Some h ->
     exists isBlur,
       Window.lookup h (window s)
         = Some (Window.mkTimer h (closeDelay s) (CloseCb isBlur))) /\
  (forall x, In x (Window.timers (window s)) ->
     match Window.callback x with
     | OpenCb _ => openTimeout s = Some (Window.handle x) /\ Window.delay x = openDelay s
     | CloseCb _ => closeTimeout s = Some (Window.handle x) /\ Window.delay x = closeDelay s
     | FocusOutCb => True
     end).
Proof.
  intros Hr. pose proof (reachable_Inv p s Hr) as H. split; [|split].
  - intros h E. destruct (ok_open_pending _ _ _ _ _ H h E) as [r Hx].
    exists r. apply In_lookup; [exact (ok_nodup _ _ _ _ _ H) | exact Hx | reflexivity].
  - intros h E. destruct (ok_close_pending _ _ _ _ _ H h E) as [b Hx].
    exists b. apply In_lookup; [exact (ok_nodup _ _ _ _ _ H) | exact Hx | reflexivity].
  - intros x Hx. destruct (Window.callback x) eqn:C; auto.
    + apply (ok_opens _ _ _ _ _ H x Hx). unfold Window.isOpenCb. now rewrite C.
    + apply (ok_closes _ _ _ _ _ H x Hx). unfold Window.isCloseCb. now rewrite C.
Qed.

Lemma handles_name_pending_timers_witness :
  let s := Scenario.closingSlowly in
  (reachable Scenario.slowProps s /\ closeTimeout s = Some 2%positive) /\
  exists isBlur,
    Window.lookup 2 (window s)
      = Some (Window.mkTimer 2 (closeDelay s) (CloseCb isBlur)).
Proof.
  intros s.
  assert (reachable Scenario.slowProps s) as Hr
    by (apply reachable_run; constructor).
  split; [split; [exact Hr | reflexivity]|].
  exact (proj1 (proj2 (handles_name_pending_timers Scenario.slowProps s Hr))
           2%positive eq_refl).
Defined.

(** X2.  When the close timer of an uncontrolled tooltip fires, the tooltip
    is closed for good: open is false, openReason is null, both handles are
    null, no open or close closure is left in the table, and the expired
    handle is dead.  clickedTrigger is reset exactly when the closure had
    captured isBlur = true. *)
Theorem close_timer_expiry (p : Props.t) (s : t) (h : positive)
        (doc : Dom.Document) (x : Window.Timer) (isBlur : bool) :
  reachable p s -> Synced.uncontrolled (synced_open s) ->
  Window.lookup h (window s) = Some x -> Window.callback x = CloseCb isBlur ->
  let s' := dispatch s (TimerFires h doc) in
  open s' = false /\ openReason s' = None /\
  openTimeout s' = None /\ closeTimeout s' = None /\
  Window.pendingOpens (window s') = [] /\ Window.pendingCloses (window s') = [] /\
  clickedTrigger s' = (if isBlur then false else clickedTrigger s) /\
  Window.lookup h (window s') = None.
Proof.
  intros Hr Hu L C s'. pose proof (reachable_Inv p s Hr) as H.
  pose proof (Inv_fire h doc s H) as H'.
  destruct (lookup_In _ _ _ L) as [Hin Hh].
  assert (closeTimeout s = Some h) as Ec.
  { destruct (ok_closes _ _ _ _ _ H x Hin) as [E _];
      [unfold Window.isCloseCb; now rewrite C | congruence]. }
  assert (openTimeout s = None) as Eo
    by (destruct (ok_exclusive _ _ _ _ _ H); congruence).
  subst s'. cbn [dispatch] in *. rewrite (fire_callback h doc s x L), C in *.
  assert (openTimeout (runCloseCb isBlur (clearTimeout h s)) = None) as Eo'
    by (destruct isBlur; exact Eo).
  assert (closeTimeout (runCloseCb isBlur (clearTimeout h s)) = None) as Ec'
    by (destruct isBlur; reflexivity).
  split; [|split; [|split; [|split; [|split; [|split; [|split]]]]]].
  - unfold open. destruct isBlur; cbn; now apply Synced_write.
  - destruct isBlur; reflexivity.
  - exact Eo'.
  - exact Ec'.
  - now apply pendingOpens_nil.
  - now apply pendingCloses_nil.
  - destruct isBlur; reflexivity.
  - replace (window (runCloseCb isBlur (clearTimeout h s)))
      with (Window.clearTimeout h (window s)) by (destruct isBlur; reflexivity).
    apply lookup_cleared.
Qed.

Lemma close_timer_expiry_witness :
  let s := Scenario.closingSlowly in
  let s' := dispatch s (TimerFires 2 Scenario.page) in
  (reachable Scenario.slowProps s /\ Synced.uncontrolled (synced_open s) /\
   Window.lookup 2 (window s) = Some (Window.mkTimer 2 2000 (CloseCb false)) /\
   Window.callback (Window.mkTimer 2 2000 (CloseCb false)) = CloseCb false) /\
  open s' = false /\ openReason s' = None /\
  openTimeout s' = None /\ closeTimeout s' = None /\
  Window.pendingOpens (window s') = [] /\ Window.pendingCloses (window s') = [] /\
  clickedTrigger s' = clickedTrigger s /\
  Window.lookup 2 (window s') = None.
Proof.
  intros s s'.
  assert (reachable Scenario.slowProps s) as Hr
    by (apply reachable_run; constructor).
  split; [split; [exact Hr | repeat split]|].
  exact (close_timer_expiry Scenario.slowProps s 2 Scenario.page _ false
           Hr eq_refl eq_refl eq_refl).
Defined.

(** X3.  When the open timer of an uncontrolled tooltip fires, open is true,
    openReason is the reason already set or else the one the request was made
    with, both handles are null and no open or close closure is left in the
    table: an open tooltip has no close pending until one is requested. *)
Theorem open_timer_expiry (p : Props.t) (s : t) (h : positive)
        (doc : Dom.Document) (x : Window.Timer) (reason : OpenReason) :
  reachable p s -> Synced.uncontrolled (synced_open s) ->
  Window.lookup h (window s) = Some x -> Window.callback x = OpenCb reason ->
  let s' := dispatch s (TimerFires h doc) in
  open s' = true /\
  openReason s' = Some (match openReason s with Some r => r | None => reason end) /\
  openTimeout s' = None /\ closeTimeout s' = None /\
  Window.pendingOpens (window s') = [] /\ Window.pendingCloses (window s') = [] /\
  clickedTrigger s' = clickedTrigger s /\
  Window.lookup h (window s') = None.
Proof.
  intros Hr Hu L C s'. pose proof (reachable_Inv p s Hr) as H.
  pose proof (Inv_fire h doc s H) as H'.
  destruct (lookup_In _ _ _ L) as [Hin Hh].
  assert (openTimeout s = Some h) as Eo.
  { destruct (ok_opens _ _ _ _ _ H x Hin) as [E _];
      [unfold Window.isOpenCb; now rewrite C | congruence]. }
  assert (closeTimeout s = None) as Ec
    by (destruct (ok_exclusive _ _ _ _ _ H); congruence).
  subst s'. cbn [dispatch] in *. rewrite (fire_callback h doc s x L), C in *.
  split; [|split; [|split; [|split; [|split; [|split; [|split]]]]]].
  - unfold open. cbn. now apply Synced_write.
  - cbn. destruct (openReason s); reflexivity.
  - reflexivity.
  - exact Ec.
  - now apply pendingOpens_nil.
  - now apply pendingCloses_nil.
  - reflexivity.
  - apply lookup_cleared.
Qed.

Lemma open_timer_expiry_witness :
  let s := Scenario.hovering in
  let s' := dispatch s (TimerFires 1 Scenario.page) in
  (reachable Props.default s /\ Synced.uncontrolled (synced_open s) /\
   Window.lookup 1 (window s) = Some (Window.mkTimer 1 1000 (OpenCb pointer)) /\
   Window.callback (Window.mkTimer 1 1000 (OpenCb pointer)) = OpenCb pointer) /\
  open s' = true /\
  openReason s' = Some pointer /\
  openTimeout s' = None /\ closeTimeout s' = None /\
  Window.pendingOpens (window s') = [] /\ Window.pendingCloses (window s') = [] /\
  clickedTrigger s' = clickedTrigger s /\
  Window.lookup 1 (window s') = None.
Proof.
  intros s s'.
  assert (reachable Props.default s) as Hr
    by (apply reachable_run; constructor).
  split; [split; [exact Hr | repeat split]|].
  exact (open_timer_expiry Props.default s 1 Scenario.page _ pointer
           Hr eq_refl eq_refl eq_refl).
Defined.

(** X4.  A scroll is never an immediate close.  On an open tooltip, a
    scroll of a node that contains the trigger leaves open as it is, cancels
    the pending open and leaves a close closure with delay closeDelay pending
    (a new one if none was); on a closed tooltip, or with a target that is
    neither an Element nor the Document, the handler changes nothing. *)
Theorem scroll_close_is_deferred (p : Props.t) (s : t) (doc : Dom.Document)
        (tr : Dom.Element) :
  reachable p s -> Dom.triggerEl doc = Some tr ->
  (open s = false -> forall target, dispatch s (Scroll doc target) = s) /\
  dispatch s (Scroll doc Dom.OtherTarget) = s /\
  (open s = true ->
   let s' := dispatch s (Scroll doc (Dom.NodeTarget true)) in
   synced_open s' = synced_open s /\ openTimeout s' = None /\
   exists h isBlur,
     closeTimeout s' = Some h /\
     Window.lookup h (window s')
       = Some (Window.mkTimer h (closeDelay s) (CloseCb isBlur)) /\
     (closeTimeout s = None ->
      isBlur = false /\ h = Window.nextHandle (window s))).
Proof.
  intros Hr Ht. pose proof (reachable_Inv p s Hr) as H. split; [|split].
  - intros Ho target. cbn. unfold handleScroll. now rewrite Ho.
  - cbn. unfold handleScroll. destruct (open s); reflexivity.
  - intros Ho s'. subst s'. cbn [dispatch]. rewrite handleScroll_node, Ho.
    apply (close_request_pending false s H). reflexivity.
Qed.

Lemma scroll_close_is_deferred_witness :
  let s := Scenario.openedByFocus in
  let s' := dispatch s (Scroll Scenario.page (Dom.NodeTarget true)) in
  (reachable Props.default s /\
   Dom.triggerEl Scenario.page = Some (Dom.mkElement Scenario.triggerRect false) /\
   open s = true) /\
  synced_open s' = synced_open s /\ openTimeout s' = None /\
  exists h isBlur,
    closeTimeout s' = Some h /\
    Window.lookup h (window s')
      = Some (Window.mkTimer h (closeDelay s) (CloseCb isBlur)) /\
    (closeTimeout s = None ->
     isBlur = false /\ h = Window.nextHandle (window s)).
Proof.
  intros s s'.
  assert (reachable Props.default s) as Hr
    by (apply reachable_run; constructor).
  split; [split; [exact Hr | split; reflexivity]|].
  exact (proj2 (proj2 (scroll_close_is_deferred Props.default s Scenario.page _
                         Hr eq_refl)) eq_refl).
Defined.

Lemma isMouseInTooltipArea_closeTooltip (s : t) :
  isMouseInTooltipArea (closeTooltip false s) = isMouseInTooltipArea s.
Proof. crush_state s. destruct ot, ct; reflexivity. Qed.

(** X5.  If the trigger or the content element cannot be found when the
    mouse moves over the page of an open tooltip, the listener requests the
    close whatever the open reason is and wherever the pointer is: open and
    the tooltip-area flag are left as they are, the pending open is cancelled
    and a close closure with delay closeDelay is pending afterwards. *)
Theorem mousemove_without_elements_closes (p : Props.t) (s : t)
        (doc : Dom.Document) (e : Geometry.Point) :
  reachable p s -> open s = true ->
  Dom.triggerEl doc = None \/ Dom.contentEl doc = None ->
  let s' := dispatch s (MouseMove doc e) in
  synced_open s' = synced_open s /\
  isMouseInTooltipArea s' = isMouseInTooltipArea s /\
  openReason s' = openReason s /\
  openTimeout s' = None /\
  exists h isBlur,
    closeTimeout s' = Some h /\
    Window.lookup h (window s')
      = Some (Window.mkTimer h (closeDelay s) (CloseCb isBlur)) /\
    (closeTimeout s = None ->
     isBlur = false /\ h = Window.nextHandle (window s)).
Proof.
  intros Hr Ho Hm s'. pose proof (reachable_Inv p s Hr) as H.
  assert (s' = closeTooltip false s) as E.
  { subst s'. cbn [dispatch]. unfold onmousemove. rewrite Ho. cbn [negb].
    destruct Hm as [Hm|Hm]; rewrite Hm; [destruct (Dom.contentEl doc)|];
      reflexivity. }
  rewrite E.
  destruct (close_request_pending false s H eq_refl) as (Hs & Hot & Hx).
  destruct (closeTooltip_frame false s) as (_ & _ & Fr).
  split; [exact Hs|]. split; [apply isMouseInTooltipArea_closeTooltip|].
  split; [exact Fr|]. split; [exact Hot | exact Hx].
Qed.

Lemma mousemove_without_elements_closes_witness :
  let s := Scenario.openedByFocus in
  let doc := Dom.mkDocument (Some (Dom.mkElement Scenario.triggerRect false)) None in
  let s' := dispatch s (MouseMove doc (Geometry.mkPoint 25 10)) in
  (reachable Props.default s /\ open s = true /\
   (Dom.triggerEl doc = None \/ Dom.contentEl doc = None)) /\
  synced_open s' = synced_open s /\
  isMouseInTooltipArea s' = isMouseInTooltipArea s /\
  openReason s' = openReason s /\
  openTimeout s' = None /\
  exists h isBlur,
    closeTimeout s' = Some h /\
    Window.lookup h (window s')
      = Some (Window.mkTimer h (closeDelay s) (CloseCb isBlur)) /\
    (closeTimeout s = None ->
     isBlur = false /\ h = Window.nextHandle (window s)).
Proof.
  intros s doc s'.
  assert (reachable Props.default s) as Hr
    by (apply reachable_run; constructor).
  split; [split; [exact Hr | split; [reflexivity | right; reflexivity]]|].
  exact (mousemove_without_elements_closes Props.default s doc
           (Geometry.mkPoint 25 10) Hr eq_refl (or_intror eq_refl)).
Defined.

(** X6.  With both elements in the document, a mousemove never requests a
    close when the open reason is not pointer, nor while the pointer is
    inside the trigger or the content according to the enter and leave
    events: the listener only stores the tooltip-area flag, and stores true
    in the second case, whatever the position and whatever
    disableHoverableContent is. *)
Theorem mousemove_only_records (s : t) (doc : Dom.Document) (e : Geometry.Point)
        (tr co : Dom.Element) :
  Dom.triggerEl doc = Some tr -> Dom.contentEl doc = Some co ->
  openReason s <> Some pointer
  \/ isPointerInsideTrigger s = true \/ isPointerInsideContent s = true ->
  exists v,
    dispatch s (MouseMove doc e)
      = (if open s then set_isMouseInTooltipArea v s else s) /\
    (isPointerInsideTrigger s = true \/ isPointerInsideContent s = true ->
     v = true).
Proof.
  intros Ht Hc Hw. cbn [dispatch]. unfold onmousemove. rewrite Ht, Hc.
  cbv zeta.
  match goal with |- context [set_isMouseInTooltipArea ?v s] => exists v end.
  split.
  - destruct (open s); cbn [negb]; auto.
    match goal with |- context [set_isMouseInTooltipArea ?v s] => set (b := v) end.
    change (openReason (set_isMouseInTooltipArea b s)) with (openReason s).
    change (isMouseInTooltipArea (set_isMouseInTooltipArea b s)) with b.
    destruct (openReason s) as [[|]|]; auto.
    destruct Hw as [Hw|Hw]; [congruence|].
    assert (b = true) as ->.
    { unfold b. destruct Hw as [-> | ->]; [now rewrite orb_true_r | reflexivity]. }
    reflexivity.
  - intros [-> | ->]; [now rewrite orb_true_r | reflexivity].
Qed.

Lemma mousemove_only_records_witness :
  let s := Scenario.openedByFocus in
  let e := Geometry.mkPoint 500 500 in
  (Dom.triggerEl Scenario.page = Some (Dom.mkElement Scenario.triggerRect false) /\
   Dom.contentEl Scenario.page = Some (Dom.mkElement Scenario.contentRect false) /\
   (openReason s <> Some pointer
    \/ isPointerInsideTrigger s = true \/ isPointerInsideContent s = true)) /\
  exists v,
    dispatch s (MouseMove Scenario.page e)
      = (if open s then set_isMouseInTooltipArea v s else s) /\
    (isPointerInsideTrigger s = true \/ isPointerInsideContent s = true ->
     v = true).
Proof.
  intros s e.
  assert (openReason s <> Some pointer) as Hne
    by (intros E; vm_compute in E; discriminate E).
  split; [split; [reflexivity | split; [reflexivity | left; exact Hne]]|].
  exact (mousemove_only_records s Scenario.page e _ _ eq_refl eq_refl
           (or_introl Hne)).
Defined.

(** X7.  A hover-opened tooltip is closed by leaving the tooltip area, with
    the delay: when the reason is pointer, the pointer is in neither element
    and the sample fails the grace-area test of the hull the listener builds
    (the trigger alone under disableHoverableContent), the listener stores
    false in the tooltip-area flag, leaves open as it is, cancels the pending
    open and leaves a close closure with delay closeDelay pending. *)
Theorem mousemove_outside_requests_close (p : Props.t) (s : t)
        (doc : Dom.Document) (e : Geometry.Point) (tr co : Dom.Element) :
  reachable p s -> open s = true -> openReason s = Some pointer ->
  isPointerInsideTrigger s = false -> isPointerInsideContent s = false ->
  Dom.triggerEl doc = Some tr -> Dom.contentEl doc = Some co ->
  Geometry.isPointerInGraceArea e
    (Geometry.makeHullFromElements
       (if disableHoverableContent s then [Dom.rect tr]
        else [Dom.rect tr; Dom.rect co])) = false ->
  let s' := dispatch s (MouseMove doc e) in
  synced_open s' = synced_open s /\ isMouseInTooltipArea s' = false /\
  openTimeout s' = None /\
  exists h isBlur,
    closeTimeout s' = Some h /\
    Window.lookup h (window s')
      = Some (Window.mkTimer h (closeDelay s) (CloseCb isBlur)) /\
    (closeTimeout s = None ->
     isBlur = false /\ h = Window.nextHandle (window s)).
Proof.
  intros Hr Ho Hp Hit Hic Ht Hc Hg s'. pose proof (reachable_Inv p s Hr) as H.
  set (s0 := set_isMouseInTooltipArea false s).
  assert (s' = closeTooltip false s0) as E.
  { subst s'. cbn [dispatch]. unfold onmousemove.
    rewrite Ho, Ht, Hc, Hit, Hic. cbv zeta. rewrite Hg. cbn [negb orb].
    change (openReason (set_isMouseInTooltipArea false s)) with (openReason s).
    rewrite Hp. reflexivity. }
  rewrite E.
  assert (Inv s0) as H0 by exact H.
  destruct (close_request_pending false s0 H0 eq_refl) as (Hs & Hot & Hx).
  split; [exact Hs|].
  split; [now rewrite isMouseInTooltipArea_closeTooltip|].
  split; [exact Hot | exact Hx].
Qed.

Lemma mousemove_outside_requests_close_witness :
  let s := Scenario.openedByPointer in
  let e := Geometry.mkPoint 60 30 in
  let tr := Dom.mkElement Scenario.triggerRect false in
  let co := Dom.mkElement Scenario.contentRect false in
  let s' := dispatch s (MouseMove Scenario.page e) in
  (reachable Props.default s /\ open s = true /\ openReason s = Some pointer /\
   isPointerInsideTrigger s = false /\ isPointerInsideContent s = false /\
   Dom.triggerEl Scenario.page = Some tr /\ Dom.contentEl Scenario.page = Some co /\
   Geometry.isPointerInGraceArea e
     (Geometry.makeHullFromElements
        (if disableHoverableContent s then [Dom.rect tr]
         else [Dom.rect tr; Dom.rect co])) = false) /\
  synced_open s' = synced_open s /\ isMouseInTooltipArea s' = false /\
  openTimeout s' = None /\
  exists h isBlur,
    closeTimeout s' = Some h /\
    Window.lookup h (window s')
      = Some (Window.mkTimer h (closeDelay s) (CloseCb isBlur)) /\
    (closeTimeout s = None ->
     isBlur = false /\ h = Window.nextHandle (window s)).
Proof.
  intros s e tr co s'.
  assert (reachable Props.default s) as Hr
    by (apply reachable_run; constructor).
  split; [split; [exact Hr | repeat split]|].
  exact (mousemove_outside_requests_close Props.default s Scenario.page e tr co
           Hr eq_refl eq_refl eq_refl eq_refl eq_refl eq_refl eq_refl).
Defined.

Lemma openTooltip_some (reason : OpenReason) (s : t) :
  Inv s -> exists h, openTimeout (openTooltip reason s) = Some h.
Proof.
  intros H. destruct (openTimeout s) as [h|] eqn:E.
  - exists h. now rewrite (openTooltip_pending reason s h H E).
  - destruct (openTooltip_idle reason s H E) as (h & Eh & _). now exists h.
Qed.

Lemma clearOpenTimeout_dead (s : t) (h : positive) :
  openTimeout s = Some h ->
  Window.lookup h (window (clearOpenTimeout s)) = None.
Proof.
  intros E. unfold clearOpenTimeout. rewrite E. cbn. apply lookup_cleared.
Qed.

(** X8.  In a reachable state, a non-touch pointerenter on the trigger
    followed by a non-touch pointerleave before the open timer fires leaves
    no open pending: the handle is null, no open closure is in the table, the
    handle the enter had stored is dead (its expiry changes nothing), and
    open and openReason are what they were. *)
Theorem hover_left_before_delay (p : Props.t) (s : t) (pt pt' : Dom.PointerType) :
  reachable p s -> Dom.isTouch pt = false -> Dom.isTouch pt' = false ->
  let entered := dispatch s (TriggerPointerEnter pt) in
  let gone := dispatch entered (TriggerPointerLeave pt') in
  synced_open gone = synced_open s /\ openReason gone = openReason s /\
  openTimeout gone = None /\ Window.pendingOpens (window gone) = [] /\
  exists h,
    openTimeout entered = Some h /\
    forall doc, dispatch gone (TimerFires h doc) = gone.
Proof.
  intros Hr Hpt Hpt' entered gone. subst gone entered. cbn [dispatch].
  unfold Trigger.onpointerleave, Trigger.onpointerenter.
  rewrite Hpt, Hpt'. cbv zeta.
  pose proof (reachable_Inv p s Hr) as H.
  set (s0 := set_isPointerInsideTrigger true s).
  set (e := openTooltip pointer s0).
  set (s1 := set_isPointerInsideTrigger false e).
  assert (Inv s0) as H0 by exact H.
  assert (Inv e) as H1 by now apply Inv_openTooltip.
  assert (Inv s1) as H1' by exact H1.
  destruct (Inv_clearOpenTimeout s1 H1') as (H2 & Eo & _).
  destruct (clearOpenTimeout_frame s1) as (Fr & Fs & _).
  destruct (openTooltip_frame pointer s0) as (Fr0 & Fs0 & _).
  split; [rewrite Fs; exact Fs0|].
  split; [rewrite Fr; exact Fr0|].
  split; [exact Eo|].
  split; [now apply pendingOpens_nil|].
  destruct (openTooltip_some pointer s0 H0) as [h Eh].
  exists h. split; [exact Eh|].
  intros doc. apply fire_dead. now apply clearOpenTimeout_dead.
Qed.

Lemma hover_left_before_delay_witness :
  let s := Scenario.fresh in
  let entered := dispatch s (TriggerPointerEnter Dom.mouse) in
  let gone := dispatch entered (TriggerPointerLeave Dom.mouse) in
  (reachable Props.default s /\ Dom.isTouch Dom.mouse = false) /\
  synced_open gone = synced_open s /\ openReason gone = openReason s /\
  openTimeout gone = None /\ Window.pendingOpens (window gone) = [] /\
  exists h,
    openTimeout entered = Some h /\
    forall doc, dispatch gone (TimerFires h doc) = gone.
Proof.
  intros s entered gone. split; [split; [constructor | reflexivity]|].
  exact (hover_left_before_delay Props.default s Dom.mouse Dom.mouse
           (reachable_new Props.default) eq_refl eq_refl).
Defined.

(** An open request cancels a pending close for good. *)
Lemma openTooltip_cancels_close (reason : OpenReason) (s : t) (h : positive) :
  Inv s -> closeTimeout s = Some h ->
  closeTimeout (openTooltip reason s) = None /\
  Window.lookup h (window (openTooltip reason s)) = None /\
  exists h',
    openTimeout (openTooltip reason s) = Some h' /\
    Window.lookup h' (window (openTooltip reason s))
      = Some (Window.mkTimer h' (openDelay s) (OpenCb reason)).
Proof.
  intros H E.
  assert (openTimeout s = None) as Eo
    by (destruct (ok_exclusive _ _ _ _ _ H); congruence).
  split; [|split].
  - unfold openTooltip. destruct (Inv_clearCloseTimeout s H) as (_ & Hc & _).
    destruct (openTimeout (clearCloseTimeout s)); auto.
  - destruct (ok_close_pending _ _ _ _ _ H h E) as [b Hb].
    pose proof (ok_fresh _ _ _ _ _ H _ Hb) as Hlt. cbn in Hlt.
    unfold openTooltip, clearCloseTimeout. rewrite E. cbn. rewrite Eo. cbn.
    unfold Window.lookup. cbn.
    rewrite find_snoc by (apply (lookup_cleared h (window s))).
    cbn. destruct (Pos.eqb_spec (Window.nextHandle (window s)) h); [lia | reflexivity].
  - now apply openTooltip_idle.
Qed.

(** X9.  Reaching the content cancels a pending close for good.  In a
    reachable state with a close pending, a pointerenter or pointerdown on
    the content (any pointer type), a non-touch pointerenter on the trigger,
    or a focus on the trigger when clickedTrigger is not set, clears
    [closeTimeout], leaves no close closure in the table, makes the old
    handle dead, and schedules the open with openDelay; open and openReason
    are left as they are. *)
Theorem open_request_cancels_close (p : Props.t) (s : t) (h : positive) (ev : Event) :
  reachable p s -> closeTimeout s = Some h ->
  match ev with
  | ContentPointerEnter _ | ContentPointerDown => True
  | TriggerPointerEnter pt => Dom.isTouch pt = false
  | TriggerFocus => clickedTrigger s = false
  | _ => False
  end ->
  let s' := dispatch s ev in
  synced_open s' = synced_open s /\ openReason s' = openReason s /\
  closeTimeout s' = None /\ Window.pendingCloses (window s') = [] /\
  (forall doc, dispatch s' (TimerFires h doc) = s') /\
  exists h' reason,
    openTimeout s' = Some h' /\
    Window.lookup h' (window s')
      = Some (Window.mkTimer h' (openDelay s) (OpenCb reason)).
Proof.
  intros Hr E Hev s'. pose proof (reachable_Inv p s Hr) as H.
  assert (exists reason s0,
            s' = openTooltip reason s0 /\ Inv s0 /\ closeTimeout s0 = Some h /\
            synced_open s0 = synced_open s /\ openReason s0 = openReason s /\
            openDelay s0 = openDelay s) as (reason & s0 & Es & H0 & E0 & Fs & Fr & Fd).
  { subst s'. destruct ev; try contradiction; cbn [dispatch].
    - exists pointer, (set_isPointerInsideTrigger true s).
      unfold Trigger.onpointerenter. rewrite Hev. split; [reflexivity | split; [exact H | split; [exact E | repeat split]]].
    - exists focus, s. unfold Trigger.onfocus. rewrite Hev. split; [reflexivity | split; [exact H | split; [exact E | repeat split]]].
    - exists pointer, (set_isPointerInsideContent true s). split; [reflexivity | split; [exact H | split; [exact E | repeat split]]].
    - exists pointer, s. split; [reflexivity | split; [exact H | split; [exact E | repeat split]]]. }
  rewrite Es.
  destruct (openTooltip_cancels_close reason s0 h H0 E0) as (Hc & Hd & h' & Ho & L).
  destruct (openTooltip_frame reason s0) as (Fr' & Fs' & _).
  split; [congruence|]. split; [congruence|]. split; [exact Hc|].
  split; [apply pendingCloses_nil; [now apply Inv_openTooltip | exact Hc]|].
  split; [intros doc; now apply fire_dead|].
  exists h', reason. rewrite <- Fd. auto.
Qed.

Lemma open_request_cancels_close_witness :
  let s := Scenario.closingSlowly in
  let ev := ContentPointerEnter Dom.touch in
  let s' := dispatch s ev in
  (reachable Scenario.slowProps s /\ closeTimeout s = Some 2%positive) /\
  synced_open s' = synced_open s /\ openReason s' = openReason s /\
  closeTimeout s' = None /\ Window.pendingCloses (window s') = [] /\
  (forall doc, dispatch s' (TimerFires 2 doc) = s') /\
  exists h' reason,
    openTimeout s' = Some h' /\
    Window.lookup h' (window s')
      = Some (Window.mkTimer h' (openDelay s) (OpenCb reason)).
Proof.
  intros s ev s'.
  assert (reachable Scenario.slowProps s) as Hr
    by (apply reachable_run; constructor).
  split; [split; [exact Hr | reflexivity]|].
  exact (open_request_cancels_close Scenario.slowProps s 2 ev Hr eq_refl I).
Defined.

Lemma lookup_fresh (h : positive) (l : list Window.Timer) :
  (forall x, In x l -> (Window.handle x < h)%positive) ->
  find (fun x => Pos.eqb (Window.handle x) h) l = None.
Proof.
  induction l as [|x l IH]; cbn; intros Hf; auto.
  assert (Pos.eqb (Window.handle x) h = false) as E.
  { apply Pos.eqb_neq. specialize (Hf x (or_introl eq_refl)). lia. }
  rewrite E. apply IH. intros y Hy. apply Hf. now right.
Qed.

(** X10.  The focusout handler of the trigger and of the content decides
    only after the focus has settled.  The handler itself just registers a
    zero-delay timer.  When that timer expires it leaves the table as it
    was; if the content or the trigger then contains the active element the
    tooltip is otherwise untouched, and if neither does (or neither is in
    the document) open is set to false at once, with no delay, and nothing
    else: the handles, the reason and clickedTrigger are not touched. *)
Theorem focusout_decides_after_settling (p : Props.t) (s : t)
        (doc : Dom.Document) (ev : Event) :
  reachable p s -> ev = TriggerFocusOut \/ ev = ContentFocusOut ->
  let h := Window.nextHandle (window s) in
  let settled := set_window (Window.mk (Pos.succ h) (Window.timers (window s))) s in
  dispatch s ev
    = set_window (Window.mk (Pos.succ h)
                    (Window.timers (window s) ++ [Window.mkTimer h 0 FocusOutCb])) s /\
  dispatch (dispatch s ev) (TimerFires h doc)
    = if containsActiveElement (Dom.contentEl doc)
         || containsActiveElement (Dom.triggerEl doc)
      then settled
      else set_open false settled.
Proof.
  intros Hr Hev h settled. pose proof (reachable_Inv p s Hr) as H.
  pose proof (ok_fresh _ _ _ _ _ H) as Hf.
  assert (dispatch s ev
          = set_window (Window.mk (Pos.succ h)
               (Window.timers (window s) ++ [Window.mkTimer h 0 FocusOutCb])) s) as E
    by (destruct Hev as [-> | ->]; reflexivity).
  split; [exact E|]. rewrite E. cbn [dispatch]. unfold fire, Window.lookup. cbn.
  rewrite find_snoc by (now apply lookup_fresh). cbn. rewrite Pos.eqb_refl.
  cbn. unfold runFocusOutCb, clearTimeout, Window.clearTimeout. cbn.
  rewrite filter_app, (filter_fresh h _ Hf). cbn. rewrite Pos.eqb_refl. cbn.
  rewrite app_nil_r.
  destruct (containsActiveElement (Dom.contentEl doc)
            || containsActiveElement (Dom.triggerEl doc)); reflexivity.
Qed.

Lemma focusout_decides_after_settling_witness :
  let s := Scenario.openedByFocus in
  let inside := Dom.mkDocument (Some (Dom.mkElement Scenario.triggerRect false))
                               (Some (Dom.mkElement Scenario.contentRect true)) in
  let settled := set_window (Window.mk 3 []) s in
  (reachable Props.default s /\
   (TriggerFocusOut = TriggerFocusOut \/ TriggerFocusOut = ContentFocusOut)) /\
  dispatch (dispatch s TriggerFocusOut) (TimerFires 2 inside) = settled /\
  dispatch (dispatch s TriggerFocusOut) (TimerFires 2 Scenario.page)
    = set_open false settled.
Proof.
  intros s inside settled.
  assert (reachable Props.default s) as Hr
    by (apply reachable_run; constructor).
  split; [split; [exact Hr | left; reflexivity]|].
  split.
  - exact (proj2 (focusout_decides_after_settling Props.default s inside
                    TriggerFocusOut Hr (or_introl eq_refl))).
  - exact (proj2 (focusout_decides_after_settling Props.default s Scenario.page
                    TriggerFocusOut Hr (or_introl eq_refl))).
Defined.

(** X11.  The handlers of pointerenter, pointerleave, pointerdown on the
    content, focus, blur, scroll and mousemove never write open: only the
    press on the trigger, focusout, keydown and the timer closures do.  And
    an uncontrolled tooltip that is closed becomes open only by the expiry of
    an open closure: never in the handler of an input event, so never
    without the open delay. *)
Theorem open_only_through_timer (s : t) (ev : Event) :
  (writesOpen ev = false -> synced_open (dispatch s ev) = synced_open s) /\
  (Synced.uncontrolled (synced_open s) -> open s = false ->
   open (dispatch s ev) = true ->
   exists h doc x reason,
     ev = TimerFires h doc /\
     Window.lookup h (window s) = Some x /\
     Window.callback x = OpenCb reason).
Proof.
  assert (writesOpen ev = false -> synced_open (dispatch s ev) = synced_open s) as A.
  { intros W. revert W. crush_event s ev; intros W; try discriminate W; reflexivity. }
  split; [exact A|].
  intros Hu Hc Ho. destruct (writesOpen ev) eqn:W.
  - assert (forall x, Synced.uncontrolled x ->
                      Synced.current (Synced.set_current false x) = true -> False) as Hno
      by (intros x Hx Hy; rewrite (Synced_write false x Hx) in Hy; discriminate).
    destruct ev; try discriminate W; cbn [dispatch] in Ho;
      try (exfalso; unfold open in *; cbn in Ho; congruence).
    + exfalso. unfold Trigger.onpointerdown in Ho.
      destruct (closeOnPointerDown s); cbn [negb] in Ho; [|congruence].
      cbv zeta in Ho. unfold open in Ho.
      destruct (clearOpenTimeout_frame
                  (set_clickedTrigger true (set_open false s))) as (_ & Fs & _).
      rewrite Fs in Ho. now apply (Hno (synced_open s)).
    + exfalso. unfold onkeydown in Ho.
      destruct (negb (String.eqb key "Escape")); [congruence|].
      cbv zeta in Ho. unfold open in Ho. cbn in Ho.
      destruct (clearOpenTimeout_frame s) as (_ & Fs & _).
      rewrite Fs in Ho. now apply (Hno (synced_open s)).
    + destruct (Window.lookup h (window s)) as [x|] eqn:L.
      * rewrite (fire_callback h doc s x L) in Ho.
        destruct (Window.callback x) as [reason|isBlur|] eqn:C.
        -- exists h, doc, x, reason. auto.
        -- exfalso. unfold open in Ho.
           replace (synced_open (runCloseCb isBlur (clearTimeout h s)))
             with (Synced.set_current false (synced_open s)) in Ho
             by (destruct isBlur; reflexivity).
           now apply (Hno (synced_open s)).
        -- exfalso. unfold runFocusOutCb in Ho.
           destruct (containsActiveElement (Dom.contentEl doc)
                     || containsActiveElement (Dom.triggerEl doc));
             [unfold open in *; cbn in Ho; congruence|].
           unfold open in Ho. cbn in Ho. now apply (Hno (synced_open s)).
      * exfalso. unfold fire in Ho. rewrite L in Ho. congruence.
    + exfalso. unfold ownerSets in Ho. unfold Synced.uncontrolled in Hu.
      rewrite Hu in Ho. congruence.
  - exfalso. unfold open in *. rewrite (A eq_refl) in Ho. congruence.
Qed.

Lemma open_only_through_timer_witness :
  let s := Scenario.hovering in
  let ev := TimerFires 1 Scenario.page in
  (Synced.uncontrolled (synced_open s) /\ open s = false /\
   open (dispatch s ev) = true) /\
  (exists h doc x reason,
     ev = TimerFires h doc /\
     Window.lookup h (window s) = Some x /\
     Window.callback x = OpenCb reason) /\
  synced_open (dispatch s TriggerBlur) = synced_open s.
Proof.
  intros s ev. split; [repeat split|]. split.
  - exact (proj2 (open_only_through_timer s ev) eq_refl eq_refl eq_refl).
  - exact (proj1 (open_only_through_timer s TriggerBlur) eq_refl).
Defined.

Lemma clickedTrigger_stays_clear (s : t) (ev : Event) :
  closeOnPointerDown s = false -> clickedTrigger s = false ->
  clickedTrigger (dispatch s ev) = false.
Proof.
  intros Hc Hk. destruct ev;
    try (cbn [dispatch]; unfold Trigger.onpointerdown; rewrite Hc; exact Hk);
    clear Hc; revert Hk; crush_handlers s; intros Hk;
    first [reflexivity | exact Hk].
Qed.

(** X12.  With closeOnPointerDown off, a press on the trigger changes
    nothing, clickedTrigger is false in every reachable state, and so a
    focus on the trigger is always an open request. *)
Theorem without_closeOnPointerDown (p : Props.t) (s : t) :
  reachable p s -> extract (Props.closeOnPointerDown p) true = false ->
  clickedTrigger s = false /\
  dispatch s TriggerPointerDown = s /\
  dispatch s TriggerFocus = openTooltip focus s.
Proof.
  intros Hr Hp.
  assert (closeOnPointerDown s = false) as Hc
    by (unfold closeOnPointerDown; now rewrite (reachable_props p s Hr)).
  assert (clickedTrigger s = false) as Hk.
  { clear Hc. induction Hr as [|s ev Hr IH]; [reflexivity|].
    apply clickedTrigger_stays_clear; [|exact IH].
    unfold closeOnPointerDown. now rewrite (reachable_props p s Hr). }
  split; [exact Hk|]. split.
  - cbn. unfold Trigger.onpointerdown. now rewrite Hc.
  - cbn. unfold Trigger.onfocus. now rewrite Hk.
Qed.

Lemma without_closeOnPointerDown_witness :
  let p := Props.mk (Props.Static None) (Some false) None None None None in
  let s := run (new p Window.empty)
               [TriggerPointerEnter Dom.mouse; TimerFires 1 Scenario.page;
                TriggerPointerDown] in
  (reachable p s /\ extract (Props.closeOnPointerDown p) true = false) /\
  clickedTrigger s = false /\
  dispatch s TriggerPointerDown = s /\
  dispatch s TriggerFocus = openTooltip focus s.
Proof.
  intros p s.
  assert (reachable p s) as Hr by (apply reachable_run; constructor).
  split; [split; [exact Hr | reflexivity]|].
  exact (without_closeOnPointerDown p s Hr eq_refl).
Defined.

Lemma run_not_mounted (evs : list Event) :
  forall s, mounted s = false -> (forall ev, In ev evs -> ev <> Mounted) ->
            mounted (run s evs) = false.
Proof.
  induction evs as [|ev evs IH]; intros s Hm Hn; [exact Hm|].
  cbn. apply IH.
  - rewrite mounted_dispatch. destruct ev; try exact Hm.
    exfalso. apply (Hn Mounted); [now left | reflexivity].
  - intros ev' Hin. apply Hn. now right.
Qed.

(** X13.  The content is rendered hidden until the mount effect has run:
    whatever the props and whatever happens before the Mounted event, hidden
    is true and the style is "display: none;", also when open or forceVisible
    is true.  The mounted flag is never reset, and once it is set the content
    is shown (hidden undefined, empty style) exactly when open or
    forceVisible is true. *)
Theorem content_hidden_until_mounted (p : Props.t) (evs : list Event) :
  (forall ev, In ev evs -> ev <> Mounted) ->
  let s := run (new p Window.empty) evs in
  (Attrs.content_hidden s = Some true /\
   Attrs.content_style s = "display: none;"%string) /\
  (forall ev, mounted (dispatch (dispatch s Mounted) ev) = true) /\
  (forall s', mounted s' = true ->
     (Attrs.content_hidden s' = None <-> open s' = true \/ forceVisible s' = true) /\
     (Attrs.content_style s' = EmptyString <-> Attrs.content_hidden s' = None)).
Proof.
  intros Hn s.
  assert (mounted s = false) as Hm by (apply run_not_mounted; auto).
  split; [|split].
  - unfold Attrs.content_hidden, Attrs.content_style. rewrite Hm, andb_false_r.
    split; reflexivity.
  - intros ev. rewrite mounted_dispatch. destruct ev; reflexivity.
  - intros s' Hs. unfold Attrs.content_hidden, Attrs.content_style, isVisible.
    rewrite Hs, andb_true_r.
    destruct (open s'), (forceVisible s'); cbn; split; split;
      intros; try discriminate; try reflexivity; auto;
      match goal with H : _ \/ _ |- _ => destruct H; discriminate end.
Qed.

Lemma content_hidden_until_mounted_witness :
  let p := Props.mk (Props.Static (Some true)) None None None (Some true) None in
  let evs := [TriggerFocus; TimerFires 1 Scenario.page] in
  let s := run (new p Window.empty) evs in
  ((forall ev, In ev evs -> ev <> Mounted) /\ open s = true /\ forceVisible s = true) /\
  Attrs.content_hidden s = Some true /\
  Attrs.content_style s = "display: none;"%string /\
  Attrs.content_hidden (dispatch s Mounted) = None.
Proof.
  intros p evs s.
  assert (forall ev, In ev evs -> ev <> Mounted) as Hn
    by (intros ev [<-|[<-|[]]]; discriminate).
  split; [split; [exact Hn | split; reflexivity]|].
  destruct (content_hidden_until_mounted p evs Hn) as ((A & B) & _ & C).
  split; [exact A|]. split; [exact B|].
  exact (proj2 (proj1 (C (dispatch s Mounted) eq_refl)) (or_introl eq_refl)).
Defined.


(** X14.  With closeOnPointerDown on, a tap on the trigger does not open
    an uncontrolled tooltip: after the touch pointerenter, the pointerdown,
    the focus that the press brings and the touch pointerleave, in a
    reachable state, open is false, no open is pending and clickedTrigger is
    set. *)
Theorem tap_on_trigger_never_opens (p : Props.t) (s : t) :
  reachable p s -> closeOnPointerDown s = true ->
  Synced.uncontrolled (synced_open s) ->
  let s' := run s [TriggerPointerEnter Dom.touch; TriggerPointerDown;
                   TriggerFocus; TriggerPointerLeave Dom.touch] in
  open s' = false /\ clickedTrigger s' = true /\
  openTimeout s' = None /\ Window.pendingOpens (window s') = [].
Proof.
  intros Hr Hc Hu s'. pose proof (reachable_Inv p s Hr) as H.
  set (s0 := set_clickedTrigger true
               (set_open false (set_isPointerInsideTrigger true s))).
  assert (Inv s0) as H0 by exact H.
  destruct (Inv_clearOpenTimeout s0 H0) as (H1 & Eo & _).
  destruct (clearOpenTimeout_frame s0) as (_ & Fs & Fc & _).
  assert (s' = set_isPointerInsideTrigger false (clearOpenTimeout s0)) as E.
  { subst s'. cbn [run fold_left dispatch].
    unfold Trigger.onpointerenter, Trigger.onpointerleave. cbn [Dom.isTouch].
    cbv zeta. unfold Trigger.onpointerdown.
    change (closeOnPointerDown (set_isPointerInsideTrigger true s))
      with (closeOnPointerDown s).
    rewrite Hc. cbn [negb]. cbv zeta. fold s0.
    unfold Trigger.onfocus. now rewrite Fc. }
  rewrite E.
  split; [|split; [|split]].
  - unfold open. cbn. rewrite Fs. unfold s0. cbn. now apply Synced_write.
  - exact Fc.
  - exact Eo.
  - apply (pendingOpens_nil (clearOpenTimeout s0) H1 Eo).
Qed.

Lemma tap_on_trigger_never_opens_witness :
  let s := Scenario.hovering in
  let s' := run s [TriggerPointerEnter Dom.touch; TriggerPointerDown;
                   TriggerFocus; TriggerPointerLeave Dom.touch] in
  (reachable Props.default s /\ closeOnPointerDown s = true /\
   Synced.uncontrolled (synced_open s)) /\
  open s' = false /\ clickedTrigger s' = true /\
  openTimeout s' = None /\ Window.pendingOpens (window s') = [].
Proof.
  intros s s'.
  assert (reachable Props.default s) as Hr
    by (apply reachable_run; constructor).
  split; [split; [exact Hr | split; reflexivity]|].
  exact (tap_on_trigger_never_opens Props.default s Hr eq_refl eq_refl).
Defined.

(** X15.  The focus block set by a press is lifted by the next blur that
    closes the tooltip.  In a reachable state of an uncontrolled tooltip with
    clickedTrigger set, no close pending and the pointer outside the tooltip
    area, a blur on the trigger schedules a close whose expiry closes the
    tooltip and clears clickedTrigger; a focus on the trigger after that
    schedules an open with reason focus. *)
Theorem blur_close_lifts_focus_block (p : Props.t) (s : t) (doc : Dom.Document) :
  reachable p s -> Synced.uncontrolled (synced_open s) ->
  clickedTrigger s = true -> isMouseInTooltipArea s = false ->
  closeTimeout s = None ->
  let blurred := dispatch s TriggerBlur in
  let closed := dispatch blurred (TimerFires (Window.nextHandle (window s)) doc) in
  dispatch blurred TriggerFocus = blurred /\
  open closed = false /\ openReason closed = None /\
  clickedTrigger closed = false /\
  exists h,
    openTimeout (dispatch closed TriggerFocus) = Some h /\
    Window.lookup h (window (dispatch closed TriggerFocus))
      = Some (Window.mkTimer h (openDelay s) (OpenCb focus)).
Proof.
  intros Hr Hu Hk Hm Ec blurred closed. pose proof (reachable_Inv p s Hr) as H.
  assert (true && isMouseInTooltipArea s = false) as B by (now rewrite Hm).
  subst closed blurred. cbn [dispatch]. unfold Trigger.onblur.
  destruct (closeTooltip_idle true s H Ec B) as (Hc & L).
  destruct (closeTooltip_frame true s) as (Fk & Fp & _).
  pose proof (open_closeTooltip true s) as Fs.
  pose proof (Inv_closeTooltip true s H) as H1.
  assert (openTimeout (closeTooltip true s) = None) as Eo
    by (destruct (ok_exclusive _ _ _ _ _ H1); congruence).
  set (b := closeTooltip true s) in *.
  set (n := Window.nextHandle (window s)) in *.
  pose proof (Inv_fire n doc b H1) as H2.
  rewrite (fire_callback n doc b _ L) in *. cbn [Window.callback] in *.
  set (c := runCloseCb true (clearTimeout n b)) in *.
  assert (clickedTrigger c = false) as Kc by reflexivity.
  assert (openTimeout c = None) as Oc by exact Eo.
  split; [unfold Trigger.onfocus; now rewrite Fk, Hk|].
  split; [unfold open; cbn; rewrite Fs; now apply Synced_write|].
  split; [reflexivity|]. split; [exact Kc|].
  unfold Trigger.onfocus. rewrite Kc.
  destruct (openTooltip_idle focus c H2 Oc) as (h & Eh & Lh).
  exists h. split; [exact Eh|]. rewrite Lh.
  replace (openDelay c) with (openDelay s); [reflexivity|].
  unfold openDelay. change (props c) with (props b). now rewrite Fp.
Qed.

Lemma blur_close_lifts_focus_block_witness :
  let s := dispatch Scenario.openedByFocus TriggerPointerDown in
  let blurred := dispatch s TriggerBlur in
  let closed := dispatch blurred (TimerFires 2 Scenario.page) in
  (reachable Props.default s /\ Synced.uncontrolled (synced_open s) /\
   clickedTrigger s = true /\ isMouseInTooltipArea s = false /\
   closeTimeout s = None) /\
  dispatch blurred TriggerFocus = blurred /\
  open closed = false /\ openReason closed = None /\
  clickedTrigger closed = false /\
  exists h,
    openTimeout (dispatch closed TriggerFocus) = Some h /\
    Window.lookup h (window (dispatch closed TriggerFocus))
      = Some (Window.mkTimer h (openDelay s) (OpenCb focus)).
Proof.
  intros s blurred closed.
  assert (reachable Props.default s) as Hr
    by (apply reachable_step; apply reachable_run; constructor).
  split; [split; [exact Hr | repeat split]|].
  exact (blur_close_lifts_focus_block Props.default s Scenario.page
           Hr eq_refl eq_refl eq_refl eq_refl).
Defined.

(** X16.  Leaving an element never requests a close.  In a reachable state
    a pointerleave on the trigger or on the content, of any pointer type,
    writes neither open nor openReason and schedules nothing: the close
    handle, the pending close closures and the handle counter are as before.
    Closing after a hover is left to the mousemove listener. *)
Theorem pointerleave_never_requests_close (p : Props.t) (s : t) (ev : Event) :
  reachable p s ->
  (exists pt, ev = TriggerPointerLeave pt \/ ev = ContentPointerLeave pt) ->
  let s' := dispatch s ev in
  synced_open s' = synced_open s /\ openReason s' = openReason s /\
  closeTimeout s' = closeTimeout s /\
  Window.pendingCloses (window s') = Window.pendingCloses (window s) /\
  Window.nextHandle (window s') = Window.nextHandle (window s).
Proof.
  intros Hr (pt & Hev) s'. pose proof (reachable_Inv p s Hr) as H.
  subst s'. destruct Hev as [-> | ->]; cbn [dispatch].
  - unfold Trigger.onpointerleave. cbv zeta.
    destruct (Dom.isTouch pt); [repeat split|].
    set (s0 := set_isPointerInsideTrigger false s).
    assert (Inv s0) as H0 by exact H.
    destruct (Inv_clearOpenTimeout s0 H0) as (_ & _ & Ec).
    destruct (clearOpenTimeout_frame s0) as (Fr & Fs & _).
    split; [exact Fs|]. split; [exact Fr|]. split; [exact Ec|].
    split; [apply (pendingCloses_clearOpenTimeout s0 H0)|].
    apply (nextHandle_clearOpenTimeout s0).
  - repeat split.
Qed.

Lemma pointerleave_never_requests_close_witness :
  let s := Scenario.hovering in
  let ev := TriggerPointerLeave Dom.mouse in
  let s' := dispatch s ev in
  (reachable Props.default s /\
   exists pt, ev = TriggerPointerLeave pt \/ ev = ContentPointerLeave pt) /\
  synced_open s' = synced_open s /\ openReason s' = openReason s /\
  closeTimeout s' = closeTimeout s /\
  Window.pendingCloses (window s') = Window.pendingCloses (window s) /\
  Window.nextHandle (window s') = Window.nextHandle (window s).
Proof.
  intros s ev s'.
  assert (reachable Props.default s) as Hr
    by (apply reachable_run; constructor).
  assert (exists pt, ev = TriggerPointerLeave pt \/ ev = ContentPointerLeave pt) as He
    by (exists Dom.mouse; left; reflexivity).
  split; [split; [exact Hr | exact He]|].
  exact (pointerleave_never_requests_close Props.default s ev Hr He).
Defined.

End Extras.
